(** * Spatial binning and forecast model of eq-forecaster-react

    A shallow embedding of the bin catalogue page (the [binsData] literal of
    the two BinPage variants) and of the forecast page
    (eqforecast-site/src/Pages/Forecasting.jsx), together with the
    properties of the specification that concern them.

    JavaScript numbers that appear as decimal literals in the sources are
    written as the rationals their decimal text denotes; comparisons
    between such numbers give the same answer on the rationals and on the
    doubles the page holds.  Where a property involves arithmetic on them
    (a sum, a difference, a product), the arithmetic is done on the
    doubles, in binary64 (module [Binary64]). *)

From Stdlib Require Import QArith Qabs Lqa ZArith List String Bool Lia.
From Stdlib Require Import Permutation Sorted.
From Stdlib Require PrimFloat.
Import ListNotations.

Local Open Scope string_scope.
Local Open Scope list_scope.
Local Open Scope Q_scope.

(** ** The bin record of BinPage *)

(** One object of the [binsData] array.  [bounds] is the four-element array
    [[lon_min, lon_max, lat_min, lat_max]]: the page prints its south-west
    corner as [(bounds[0], bounds[2])] and its north-east corner as
    [(bounds[1], bounds[3])]. *)
Record Bin : Type := mkBin {
  id : Z;
  bounds : list Q;
  width : Q;
  height : Q;
  area : Q;
  center_lat : Q;
  center_lon : Q;
  locations : list string
}.

Definition lon_min (b : Bin) : Q := nth 0 (bounds b) 0.
Definition lon_max (b : Bin) : Q := nth 1 (bounds b) 0.
Definition lat_min (b : Bin) : Q := nth 2 (bounds b) 0.
Definition lat_max (b : Bin) : Q := nth 3 (bounds b) 0.

(** The fields other than the informational [locations] list. *)
Definition geometry (b : Bin) : Z * list Q * Q * Q * Q * Q * Q :=
  (id b, bounds b, width b, height b, area b, center_lat b, center_lon b).

(** ** The static table, first variant of BinPage *)

Module BinPage.

Definition binsData : list Bin :=
  [ {| id := 0;
      bounds := [119.475; 122.65; 7.0; 12.0];
      width := 3.175; height := 5.0; area := 15.875;
      center_lat := 9.5; center_lon := 121.0625;
      locations :=
      [ "Southern Mindoro";
        "Panay (Aklan, Antique, Iloilo)";
        "Western Negros (Occidental/Oriental)" ] |};
    {| id := 1;
      bounds := [125.825; 127.4125; 2.0; 4.5];
      width := 1.5875; height := 2.5; area := 3.97;
      center_lat := 3.25; center_lon := 126.61875;
      locations :=
      [ "Celebes Sea";
        "Southern Mindanao offshore (Sarangani Bay, Davao Occidental)";
        "Border near Indonesia" ] |};
    {| id := 2;
      bounds := [127.4125; 129.0; 2.0; 4.5];
      width := 1.5875; height := 2.5; area := 3.97;
      center_lat := 3.25; center_lon := 128.20625;
      locations :=
      [ "Celebes Sea–Pacific transition (offshore southeast of Mindanao)" ] |};
    {| id := 3;
      bounds := [125.825; 127.4125; 4.5; 7.0];
      width := 1.5875; height := 2.5; area := 3.97;
      center_lat := 5.75; center_lon := 126.61875;
      locations :=
      [ "Davao Region (Davao Oriental, Occidental, City)";
        "Compostela Valley";
        "Parts of Sarangani" ] |};
    {| id := 4;
      bounds := [124.2375; 125.825; 7.0; 9.5];
      width := 1.5875; height := 2.5; area := 3.97;
      center_lat := 8.25; center_lon := 125.03125;
      locations :=
      [ "Bukidnon";
        "Misamis Oriental";
        "Agusan del Sur";
        "Northern Davao del Norte";
        "Northern Cotabato" ] |};
    {| id := 5;
      bounds := [124.2375; 125.825; 9.5; 12.0];
      width := 1.5875; height := 2.5; area := 3.97;
      center_lat := 10.75; center_lon := 125.03125;
      locations :=
      [ "Northern Agusan del Norte";
        "Northern Surigao del Sur";
        "Northern Mindanao uplands";
        "Southern Leyte";
        "Eastern Samar";
        "Dinagat Islands";
        "Samar" ] |};
    {| id := 6;
      bounds := [125.825; 127.4125; 7.0; 9.5];
      width := 1.5875; height := 2.5; area := 3.97;
      center_lat := 8.25; center_lon := 126.61875;
      locations :=
      [ "Surigao del Sur";
        "Davao Oriental";
        "Agusan del Sur";
        "Eastern Mindanao offshore (Philippine Trench)" ] |};
    {| id := 7;
      bounds := [119.475; 121.0625; 12.0; 14.5];
      width := 1.5875; height := 2.5; area := 3.97;
      center_lat := 13.25; center_lon := 120.26875;
      locations :=
      [ "Southern Luzon (Mindoro, Marinduque, Batangas, Quezon)";
        "Northern Palawan";
        "Dasmarinas";
        "Muntilupa" ] |};
    {| id := 8;
      bounds := [119.475; 121.0625; 14.5; 17.0];
      width := 1.5875; height := 2.5; area := 3.97;
      center_lat := 15.75; center_lon := 120.26875;
      locations :=
      [ "Central Luzon (Zambales, Bataan, Pampanga, Nueva Ecija, Pangasinan, Tarlac, Baguio, Cabanatuan)";
        "Metro Manila edge";
        "Olangapo";
        "Bataan";
        "Mariveles";
        "Benguet";
        "La Union" ] |};
    {| id := 9;
      bounds := [121.0625; 122.65; 14.5; 17.0];
      width := 1.5875; height := 2.5; area := 3.97;
      center_lat := 15.75; center_lon := 121.85625;
      locations :=
      [ "Quezon Province";
        "Pasig";
        "Taguig";
        "Rizal";
        "Tanay";
        "Antipolo";
        "Dona Remedios Trinidad";
        "Montalbon";
        "Quirino";
        "Aurora";
        "Camarines Norte";
        "Polillo Islands" ] |};
    {| id := 10;
      bounds := [119.475; 121.0625; 17.0; 19.5];
      width := 1.5875; height := 2.5; area := 3.97;
      center_lat := 18.25; center_lon := 120.26875;
      locations :=
      [ "Ilocos Region (Ilocos Norte, Ilocos Sur, La Union, Pangasinan)";
        "Abra";
        "Vigan" ] |};
    {| id := 11;
      bounds := [121.0625; 122.65; 17.0; 19.5];
      width := 1.5875; height := 2.5; area := 3.97;
      center_lat := 18.25; center_lon := 121.85625;
      locations :=
      [ "Nueva Vizcaya";
        "Quirino";
        "Southern Isabela";
        "Tuguegarao";
        "Ilagan";
        "Apayao";
        "Kalinga" ] |};
    {| id := 12;
      bounds := [119.475; 121.0625; 19.5; 22.0];
      width := 1.5875; height := 2.5; area := 3.97;
      center_lat := 20.75; center_lon := 120.26875;
      locations :=
      [ "Northern Luzon (Cagayan, Apayao, Mountain Province, Kalinga)";
        "Batanes offshore" ] |};
    {| id := 13;
      bounds := [121.0625; 122.65; 19.5; 22.0];
      width := 1.5875; height := 2.5; area := 3.97;
      center_lat := 20.75; center_lon := 121.85625;
      locations :=
      [ "Eastern Cagayan Valley";
        "Batanes";
        "Northern Isabela";
        "Cagayan up to Babuyan Islands" ] |};
    {| id := 14;
      bounds := [124.2375; 125.825; 12.0; 14.5];
      width := 1.5875; height := 2.5; area := 3.97;
      center_lat := 13.25; center_lon := 125.03125;
      locations :=
      [ "Samar";
        "Northern Samar";
        "Masbate";
        "Sorsogon";
        "Albay";
        "Catanduanes" ] |};
    {| id := 15;
      bounds := [127.4125; 129.0; 4.5; 9.5];
      width := 1.5875; height := 5.0; area := 7.94;
      center_lat := 7.0; center_lon := 128.20625;
      locations :=
      [ "Philippine Trench (east of Mindanao)";
        "Offshore Davao–Caraga" ] |};
    {| id := 16;
      bounds := [122.65; 124.2375; 7.0; 12.0];
      width := 1.5875; height := 5.0; area := 7.94;
      center_lat := 9.5; center_lon := 123.44375;
      locations :=
      [ "Central–Eastern Visayas (Leyte, Samar, Biliran, Cebu, Bohol, Zambonga del Sur, Lanao del Norte, Misamis Occidental, Parts of Zambonga del Norte)";
        "Northern Mindanao coast" ] |};
    {| id := 17;
      bounds := [121.0625; 124.2375; 12.0; 14.5];
      width := 3.175; height := 2.5; area := 7.94;
      center_lat := 13.25; center_lon := 122.65;
      locations :=
      [ "Bicol Region (Camarines Norte, Camarines Sur, Albay)";
        "Sibuyan Island";
        "Parts of Masbate";
        "Romblon";
        " Sorosogon";
        "Oriental Mindoro";
        "Marinduque";
        "Catanduanes";
        "Parts of Batangas";
        "Calamba Laguna";
        "Quezon" ] |};
    {| id := 18;
      bounds := [125.825; 129.0; 12.0; 22.0];
      width := 3.175; height := 10.0; area := 31.75;
      center_lat := 17.0; center_lon := 127.4125;
      locations :=
      [ "Philippine Trench (east of Luzon & Samar)";
        "Deep Pacific offshore area" ] |};
    {| id := 19;
      bounds := [124.2375; 125.825; 2.0; 7.0];
      width := 1.5875; height := 5.0; area := 7.94;
      center_lat := 4.5; center_lon := 125.03125;
      locations :=
      [ "Southern Mindanao (General Santos, South Cotabato, Sarangani, Sultan Kudarat, Davao Occidental, Davao del Sur, Maguindanao del Sur)" ] |};
    {| id := 20;
      bounds := [125.825; 129.0; 9.5; 12.0];
      width := 3.175; height := 2.5; area := 7.94;
      center_lat := 10.75; center_lon := 127.4125;
      locations :=
      [ "Eastern Visayas offshore (Samar, Leyte east coast)";
        "Siargao";
        "Socorro";
        "Philippine Trench (Tacloban–Borongan area)" ] |};
    {| id := 21;
      bounds := [122.65; 125.825; 14.5; 22.0];
      width := 3.175; height := 7.5; area := 23.81;
      center_lat := 18.25; center_lon := 124.2375;
      locations :=
      [ "Bicol Region (Camarines Sur, Albay, Catanduanes)";
        "Eastern Luzon (Quezon, Aurora, Isabela coastal areas)" ] |};
    {| id := 22;
      bounds := [116.3; 119.475; 7.0; 22.0];
      width := 3.175; height := 15.0; area := 47.625;
      center_lat := 14.5; center_lon := 117.8875;
      locations :=
      [ "Palawan";
        "Mindoro";
        "Calamian Islands";
        "Balabac";
        "Spratly Islands vicinity (West Philippine Sea)" ] |};
    {| id := 23;
      bounds := [116.3; 124.2375; 2.0; 7.0];
      width := 7.9375; height := 5.0; area := 39.6875;
      center_lat := 4.5; center_lon := 120.26875;
      locations :=
      [ "Sulu Archipelago (Tawi-Tawi, Basilan, Jolo)";
        "Zamboanga City ";
        "Celebes Sea" ] |} ].

End BinPage.

(** ** The static table, second variant of BinPage

    The second variant of the page carries the same component with other
    place names. *)

Module BinPageVariant.

Definition binsData : list Bin :=
  [ {| id := 0;
      bounds := [119.475; 122.65; 7.0; 12.0];
      width := 3.175; height := 5.0; area := 15.875;
      center_lat := 9.5; center_lon := 121.0625;
      locations :=
      [ "Palawan (northern part)";
        "Mindoro";
        "Romblon" ] |};
    {| id := 1;
      bounds := [125.825; 127.4125; 2.0; 4.5];
      width := 1.5875; height := 2.5; area := 3.97;
      center_lat := 3.25; center_lon := 126.61875;
      locations :=
      [ "North Maluku";
        "Halmahera Sea" ] |};
    {| id := 2;
      bounds := [127.4125; 129.0; 2.0; 4.5];
      width := 1.5875; height := 2.5; area := 3.97;
      center_lat := 3.25; center_lon := 128.20625;
      locations :=
      [ "Maluku Sea";
        "Eastern Halmahera" ] |};
    {| id := 3;
      bounds := [125.825; 127.4125; 4.5; 7.0];
      width := 1.5875; height := 2.5; area := 3.97;
      center_lat := 5.75; center_lon := 126.61875;
      locations :=
      [ "Sangihe Islands";
        "North Sulawesi Sea" ] |};
    {| id := 4;
      bounds := [124.2375; 125.825; 7.0; 9.5];
      width := 1.5875; height := 2.5; area := 3.97;
      center_lat := 8.25; center_lon := 125.03125;
      locations :=
      [ "Northern Mindanao";
        "Camiguin";
        "Bohol Sea" ] |};
    {| id := 5;
      bounds := [124.2375; 125.825; 9.5; 12.0];
      width := 1.5875; height := 2.5; area := 3.97;
      center_lat := 10.75; center_lon := 125.03125;
      locations :=
      [ "Cebu";
        "Bohol";
        "Central Visayas" ] |};
    {| id := 6;
      bounds := [125.825; 127.4125; 7.0; 9.5];
      width := 1.5875; height := 2.5; area := 3.97;
      center_lat := 8.25; center_lon := 126.61875;
      locations :=
      [ "Davao Gulf";
        "Mindanao Sea";
        "Surigao" ] |};
    {| id := 7;
      bounds := [119.475; 121.0625; 12.0; 14.5];
      width := 1.5875; height := 2.5; area := 3.97;
      center_lat := 13.25; center_lon := 120.26875;
      locations :=
      [ "Southern Luzon";
        "Mindoro Strait";
        "Batangas" ] |};
    {| id := 8;
      bounds := [119.475; 121.0625; 14.5; 17.0];
      width := 1.5875; height := 2.5; area := 3.97;
      center_lat := 15.75; center_lon := 120.26875;
      locations :=
      [ "Central Luzon";
        "Manila Bay";
        "Zambales" ] |};
    {| id := 9;
      bounds := [121.0625; 122.65; 14.5; 17.0];
      width := 1.5875; height := 2.5; area := 3.97;
      center_lat := 15.75; center_lon := 121.85625;
      locations :=
      [ "Metro Manila";
        "Rizal";
        "Laguna";
        "Quezon" ] |};
    {| id := 10;
      bounds := [119.475; 121.0625; 17.0; 19.5];
      width := 1.5875; height := 2.5; area := 3.97;
      center_lat := 18.25; center_lon := 120.26875;
      locations :=
      [ "Ilocos";
        "La Union";
        "Pangasinan" ] |};
    {| id := 11;
      bounds := [121.0625; 122.65; 17.0; 19.5];
      width := 1.5875; height := 2.5; area := 3.97;
      center_lat := 18.25; center_lon := 121.85625;
      locations :=
      [ "Cagayan Valley";
        "Nueva Ecija";
        "Tarlac" ] |};
    {| id := 12;
      bounds := [119.475; 121.0625; 19.5; 22.0];
      width := 1.5875; height := 2.5; area := 3.97;
      center_lat := 20.75; center_lon := 120.26875;
      locations :=
      [ "Northern Luzon";
        "Cagayan";
        "Ilocos Norte" ] |};
    {| id := 13;
      bounds := [121.0625; 122.65; 19.5; 22.0];
      width := 1.5875; height := 2.5; area := 3.97;
      center_lat := 20.75; center_lon := 121.85625;
      locations :=
      [ "Cagayan";
        "Isabela";
        "Kalinga" ] |};
    {| id := 14;
      bounds := [124.2375; 125.825; 12.0; 14.5];
      width := 1.5875; height := 2.5; area := 3.97;
      center_lat := 13.25; center_lon := 125.03125;
      locations :=
      [ "Samar";
        "Eastern Visayas";
        "Leyte Gulf" ] |};
    {| id := 15;
      bounds := [127.4125; 129.0; 4.5; 9.5];
      width := 1.5875; height := 5.0; area := 7.94;
      center_lat := 7.0; center_lon := 128.20625;
      locations :=
      [ "North Maluku";
        "Celebes Sea" ] |};
    {| id := 16;
      bounds := [122.65; 124.2375; 7.0; 12.0];
      width := 1.5875; height := 5.0; area := 7.94;
      center_lat := 9.5; center_lon := 123.44375;
      locations :=
      [ "Negros";
        "Siquijor";
        "Bohol Sea" ] |};
    {| id := 17;
      bounds := [121.0625; 124.2375; 12.0; 14.5];
      width := 3.175; height := 2.5; area := 7.94;
      center_lat := 13.25; center_lon := 122.65;
      locations :=
      [ "Bicol Peninsula";
        "Masbate";
        "Albay" ] |};
    {| id := 18;
      bounds := [125.825; 129.0; 12.0; 22.0];
      width := 3.175; height := 10.0; area := 31.75;
      center_lat := 17.0; center_lon := 127.4125;
      locations :=
      [ "Philippine Sea";
        "Pacific Ocean" ] |};
    {| id := 19;
      bounds := [124.2375; 125.825; 2.0; 7.0];
      width := 1.5875; height := 5.0; area := 7.94;
      center_lat := 4.5; center_lon := 125.03125;
      locations :=
      [ "North Sulawesi";
        "Celebes Sea" ] |};
    {| id := 20;
      bounds := [125.825; 129.0; 9.5; 12.0];
      width := 3.175; height := 2.5; area := 7.94;
      center_lat := 10.75; center_lon := 127.4125;
      locations :=
      [ "Mindanao Sea";
        "Eastern Mindanao" ] |};
    {| id := 21;
      bounds := [122.65; 125.825; 14.5; 22.0];
      width := 3.175; height := 7.5; area := 23.81;
      center_lat := 18.25; center_lon := 124.2375;
      locations :=
      [ "Northern Philippines Sea";
        "Luzon Strait" ] |};
    {| id := 22;
      bounds := [116.3; 119.475; 7.0; 22.0];
      width := 3.175; height := 15.0; area := 47.625;
      center_lat := 14.5; center_lon := 117.8875;
      locations :=
      [ "South China Sea";
        "Western Philippines" ] |};
    {| id := 23;
      bounds := [116.3; 124.2375; 2.0; 7.0];
      width := 7.9375; height := 5.0; area := 39.6875;
      center_lat := 4.5; center_lon := 120.26875;
      locations :=
      [ "Sulu Sea";
        "Southern Philippines";
        "Palawan (southern)" ] |} ].

End BinPageVariant.

(** ** Spatial index *)

Module SpatialIndex.

(** Modelled from the spec: the result of [assign], a bin id or
    Unassigned; the sources have no such type. *)
Inductive Assignment : Type :=
| Unassigned
| Assigned (bin_id : Z).

(** Modelled from the spec: the sources hold the bin table but no
    point-to-bin function, so the containment test of the Spatial Index is
    written from its description, [lon_min <= lon <= lon_max] and
    [lat_min <= lat <= lat_max], both inclusive. *)
Definition contains (b : Bin) (lat lon : Q) : bool :=
  Qle_bool (lon_min b) lon && Qle_bool lon (lon_max b) &&
  Qle_bool (lat_min b) lat && Qle_bool lat (lat_max b).

(** Modelled from the spec: the tie-break between two matching bins, absent
    from the sources: the smaller [area] wins, and on equal areas the
    smaller [id]. *)
Definition preferred (b c : Bin) : bool :=
  negb (Qle_bool (area c) (area b)) ||
  (Qeq_bool (area b) (area c) && (id b <? id c)%Z).

(** Modelled from the spec: one step of the selection among several
    matching bins, keeping the preferred one. *)
Definition pick (best b : Bin) : Bin :=
  if preferred b best then b else best.

(** [b] is selected before [c]: smaller area, or equal area and an id that
    is not larger. *)
Definition chosen_before (b c : Bin) : Prop :=
  area b < area c \/ (area b == area c /\ (id b <= id c)%Z).

(** Modelled from the spec: [assign(lat, lon)], absent from the sources.
    All bins whose bounds contain the point are collected in registry
    order; none gives [Unassigned], one gives that bin, several give the
    one the tie-break selects. *)
Definition assign (registry : list Bin) (lat lon : Q) : Assignment :=
  match filter (fun b => contains b lat lon) registry with
  | [] => Unassigned
  | [b] => Assigned (id b)
  | b :: rest => Assigned (id (fold_left pick rest b))
  end.

End SpatialIndex.

(** ** Risk tiers *)

Module Risk.

(** The four values [risk_level] takes in the forecast rows, in ascending
    order. *)
Inductive RiskLevel : Type := low | medium | high | critical.

(** The position of a tier in the ordered enumeration. *)
Definition rank (r : RiskLevel) : nat :=
  match r with low => 0 | medium => 1 | high => 2 | critical => 3 end.

(** The tier as the string the forecast rows carry in [risk_level]. *)
Definition risk_name (r : RiskLevel) : string :=
  match r with
  | low => "low" | medium => "medium" | high => "high" | critical => "critical"
  end.

(** Modelled from the spec: the lower bounds of the tiers above low, kept
    as named constants as the spec asks. *)
Definition MEDIUM_THRESHOLD : Q := 5.0.
Definition HIGH_THRESHOLD : Q := 6.0.
Definition CRITICAL_THRESHOLD : Q := 7.0.

(** Modelled from the spec: the classifier that derives [risk_level] from
    [max_magnitude] runs behind the forecast API and is not among the
    sources; the page only receives its result.  It is written from the
    spec's thresholds, each tier starting at its lower bound inclusive. *)
Definition classify_risk (max_magnitude : Q) : RiskLevel :=
  if Qle_bool CRITICAL_THRESHOLD max_magnitude then critical
  else if Qle_bool HIGH_THRESHOLD max_magnitude then high
  else if Qle_bool MEDIUM_THRESHOLD max_magnitude then medium
  else low.

End Risk.

(** ** The forecast page (Forecasting.jsx, the variant that calls the API) *)

Module Forecasting.

(** A row of [forecastData]. *)
Record ForecastRow : Type := mkRow {
  bin_id : Z;
  max_magnitude : Q;
  num_earthquakes : Z;
  risk_level : string
}.

(** An entry of [historicalData], as far as the page reads it. *)
Record Quake : Type := mkQuake {
  quake_id : Z;
  latitude : Q;
  longitude : Q;
  magnitude : Q
}.

(** A value of the object [geographicBins]. *)
Record Region : Type := mkRegion {
  name : string;
  coordinates : list Q;
  description : string;
  color : string
}.

(** [geographicBins], keyed 1 to 4; [Object.entries] visits integer keys in
    ascending order, which is the order of this list. *)
Definition geographicBins : list (Z * Region) :=
  [ (1%Z, {| name := "Northern Luzon"; coordinates := [16.5; 120.5];
             description := "Baguio, La Union, Ilocos region";
             color := "#28a745" |});
    (2%Z, {| name := "Central Luzon"; coordinates := [15.1; 120.6];
             description := "Angeles, Pampanga, Tarlac region";
             color := "#ffc107" |});
    (3%Z, {| name := "Metro Manila"; coordinates := [14.6; 121.0];
             description := "Manila, Quezon City, surrounding areas";
             color := "#dc3545" |});
    (4%Z, {| name := "Southern Philippines"; coordinates := [7.1; 125.6];
             description := "Davao, Mindanao region";
             color := "#6f42c1" |}) ].

Definition riskColors : list (string * string) :=
  [ ("low", "#28a745"); ("medium", "#ffc107");
    ("high", "#fd7e14"); ("critical", "#dc3545") ].

Fixpoint lookup (k : string) (o : list (string * string)) : option string :=
  match o with
  | [] => None
  | (k', v) :: rest => if String.eqb k k' then Some v else lookup k rest
  end.

(** The names an object literal inherits from [Object.prototype]: a lookup
    under one of them finds a function (under [__proto__], the prototype
    itself), which is truthy and is no string. *)
Definition objectPrototypeKeys : list string :=
  [ "constructor"; "hasOwnProperty"; "isPrototypeOf";
    "propertyIsEnumerable"; "toLocaleString"; "toString"; "valueOf";
    "__proto__"; "__defineGetter__"; "__defineSetter__";
    "__lookupGetter__"; "__lookupSetter__" ].

(** What [getRiskLevelColor] can give back: a string, or the inherited
    member found under the key. *)
Inductive JsValue : Type :=
| Str (s : string)
| Inherited (key : string).

(** [riskColors[riskLevel] || "#6c757d"]: an own key gives its colour, an
    inherited one the inherited member, any other key the grey. *)
Definition getRiskLevelColor (riskLevel : string) : JsValue :=
  match lookup riskLevel riskColors with
  | Some c => Str c
  | None =>
      if existsb (String.eqb riskLevel) objectPrototypeKeys
      then Inherited riskLevel
      else Str "#6c757d"
  end.

(** The colour of a historical marker:
    [magnitude >= 6 ? '#dc3545' : magnitude >= 5 ? '#fd7e14' : '#28a745']. *)
Definition markerColor (eq : Quake) : string :=
  if Qle_bool 6 (magnitude eq) then "#dc3545"
  else if Qle_bool 5 (magnitude eq) then "#fd7e14"
  else "#28a745".

(** The number held in [inputYear]: the input handler stores
    [parseInt(e.target.value)], an integer or [NaN]. *)
Inductive Num : Type :=
| NaN
| Int (z : Z).

(** JavaScript truthiness and the comparisons with an integer constant;
    every comparison with [NaN] is false. *)
Definition truthy (n : Num) : bool :=
  match n with NaN => false | Int z => negb (z =? 0)%Z end.

Definition num_geb (n : Num) (k : Z) : bool :=
  match n with NaN => false | Int z => (k <=? z)%Z end.

Definition num_leb (n : Num) (k : Z) : bool :=
  match n with NaN => false | Int z => (z <=? k)%Z end.

(** The component state the forecast handlers read and write. *)
Record State : Type := mkState {
  inputYear : Num;
  forecastData : list ForecastRow;
  loading : bool;
  error : option string;
  historicalData : list Quake
}.

(** A request sent to the API: [GET /api/forecast] with its [year]
    parameter, [GET /api/historical-data] with its [limit]. *)
Inductive Request : Type :=
| GetForecast (year : Num)
| GetHistoricalData (limit : Z).

(** The page together with the requests it has sent so far. *)
Record World : Type := mkWorld {
  page : State;
  requests : list Request
}.

(** How an awaited [axios.get] ends: it resolves with the payload of the
    response, or it rejects (network failure, timeout, error status). *)
Inductive Reply (A : Type) : Type :=
| Resolved (data : A)
| Rejected.

Arguments Resolved {A} data.
Arguments Rejected {A}.

Definition setLoading (v : bool) (w : World) : World :=
  let s := page w in
  {| page := {| inputYear := inputYear s; forecastData := forecastData s;
                loading := v; error := error s;
                historicalData := historicalData s |};
     requests := requests w |}.

Definition setError (v : option string) (w : World) : World :=
  let s := page w in
  {| page := {| inputYear := inputYear s; forecastData := forecastData s;
                loading := loading s; error := v;
                historicalData := historicalData s |};
     requests := requests w |}.

Definition setForecastData (v : list ForecastRow) (w : World) : World :=
  let s := page w in
  {| page := {| inputYear := inputYear s; forecastData := v;
                loading := loading s; error := error s;
                historicalData := historicalData s |};
     requests := requests w |}.

Definition setHistoricalData (v : list Quake) (w : World) : World :=
  let s := page w in
  {| page := {| inputYear := inputYear s; forecastData := forecastData s;
                loading := loading s; error := error s;
                historicalData := v |};
     requests := requests w |}.

(** The input's [onChange]: [setInputYear(parseInt(e.target.value))]. *)
Definition setInputYear (v : Num) (w : World) : World :=
  let s := page w in
  {| page := {| inputYear := v; forecastData := forecastData s;
                loading := loading s; error := error s;
                historicalData := historicalData s |};
     requests := requests w |}.

Definition send (r : Request) (w : World) : World :=
  {| page := page w; requests := requests w ++ [r] |}.

(** The rows the [catch] branch of [generateForecast] installs. *)
Definition fallbackForecast : list ForecastRow :=
  [ {| bin_id := 1; max_magnitude := 4.2; num_earthquakes := 15;
       risk_level := "low" |};
    {| bin_id := 2; max_magnitude := 5.8; num_earthquakes := 8;
       risk_level := "medium" |};
    {| bin_id := 3; max_magnitude := 6.5; num_earthquakes := 3;
       risk_level := "high" |};
    {| bin_id := 4; max_magnitude := 7.2; num_earthquakes := 1;
       risk_level := "critical" |} ].

Definition fetchFailedMessage : string :=
  "Failed to fetch forecast data. Please try again.".

Definition invalidYearMessage : string :=
  "Please enter a valid year between 2020 and 2030.".

Section Handlers.

(** The two endpoints as the page sees them: the outcome of
    [GET /api/forecast] for the year passed as parameter, and of
    [GET /api/historical-data] for the limit passed. *)
Variable forecast_api : Num -> Reply (list ForecastRow).
Variable historical_api : Z -> Reply (list Quake).

(** [generateForecast]: the [try] / [catch] / [finally] around the
    request. *)
Definition generateForecast (w : World) : World :=
  let w := setLoading true w in
  let w := setError None w in
  let year := inputYear (page w) in
  let w := send (GetForecast year) w in
  let w :=
    match forecast_api year with
    | Resolved forecast_data => setForecastData forecast_data w
    | Rejected =>
        let w := setError (Some fetchFailedMessage) w in
        setForecastData fallbackForecast w
    end in
  setLoading false w.

(** [loadHistoricalData]: a rejected request is logged and otherwise
    ignored. *)
Definition loadHistoricalData (w : World) : World :=
  let w := send (GetHistoricalData 100) w in
  match historical_api 100 with
  | Resolved data => setHistoricalData data w
  | Rejected => w
  end.

(** The effect run once when the page mounts. *)
Definition onMount (w : World) : World :=
  loadHistoricalData (generateForecast w).

(** [handleYearSubmit]:
    [if (inputYear && inputYear >= 2020 && inputYear <= 2030)]. *)
Definition handleYearSubmit (w : World) : World :=
  let y := inputYear (page w) in
  if truthy y && num_geb y 2020 && num_leb y 2030
  then generateForecast w
  else setError (Some invalidYearMessage) w.

End Handlers.

(** What the page renders from [error]: [{error && <div>{error}</div>}]
    shows the text when it is a non-empty string. *)
Definition errorBanner (s : State) : option string :=
  match error s with
  | Some msg => if String.eqb msg "" then None else Some msg
  | None => None
  end.



(** An API that cannot be reached: every request is rejected. *)
Definition unreachable : Num -> Reply (list ForecastRow) :=
  fun _ => Rejected.

(** A page in its initial state but for the year held by the input. *)
Definition mounted (year : Z) : World :=
  {| page := {| inputYear := Int year; forecastData := []; loading := false;
                error := None; historicalData := [] |};
     requests := [] |}.

(** The state the component starts in when the clock's year is
    [fullYear]: [useState(new Date().getFullYear() + 1)]. *)
Definition initialWorld (fullYear : Z) : World :=
  mounted (fullYear + 1).

End Forecasting.

(** ** The forecast page, static variant

    The other variant of Forecasting.jsx has no API: its table shows four
    placeholder rows and its submit handler only logs the year. *)

Module ForecastingStatic.

Record Row : Type := mkRow {
  bin : Z;
  maxMag : string;
  noOfEq : string
}.

Record State : Type := mkState {
  inputYear : string;
  forecastData : list Row
}.

Record World : Type := mkWorld {
  page : State;
  console : list (string * string)
}.

Definition initialWorld : World :=
  {| page := {| inputYear := "";
                forecastData :=
                  [ {| bin := 1; maxMag := "-"; noOfEq := "-" |};
                    {| bin := 2; maxMag := "-"; noOfEq := "-" |};
                    {| bin := 3; maxMag := "-"; noOfEq := "-" |};
                    {| bin := 4; maxMag := "-"; noOfEq := "-" |} ] |};
     console := [] |}.

(** [console.log("Generating forecast for year:", inputYear)] *)
Definition handleYearSubmit (w : World) : World :=
  {| page := page w;
     console := console w
                ++ [("Generating forecast for year:", inputYear (page w))] |}.

End ForecastingStatic.

(** ** Executable checks on a bin table *)

Module TableChecks.

(** The product of the side lengths of the bounds rectangle. *)
Definition side_product (b : Bin) : Q :=
  (lon_max b - lon_min b) * (lat_max b - lat_min b).

Definition nondegenerate (b : Bin) : bool :=
  negb (Qle_bool (lon_max b) (lon_min b)) &&
  negb (Qle_bool (lat_max b) (lat_min b)).

Definition area_within (tol : Q) (b : Bin) : bool :=
  Qle_bool (Qabs (area b - side_product b)) tol.

(** A tolerance for comparing two computed doubles of the size of the
    table's areas: rounding errors there are of the order of [1e-14]. *)
Definition float_tolerance : Q := 1e-9.

(** Half a unit of the second decimal: the most a value rounded to two
    decimals is away from the value. *)
Definition two_decimal_rounding : Q := 0.005.

(** A bin that is in no table, for total list access. *)
Definition no_bin : Bin := mkBin (-1) [] 0 0 0 0 0 [].

Definition ids_0_23 : list Z :=
  [0; 1; 2; 3; 4; 5; 6; 7; 8; 9; 10; 11; 12; 13; 14; 15; 16; 17; 18; 19;
   20; 21; 22; 23]%Z.

End TableChecks.

(** ** Coverage of a region by a grid of cells

    A region is cut along ascending breakpoints on each axis; the region is
    covered as soon as every cell between consecutive breakpoints lies
    inside the bounds of some bin. *)

Module Grid.

(** The consecutive intervals [(x, x1); (x1, x2); ...] of a breakpoint
    list that starts at [x]. *)
Fixpoint steps_from (x : Q) (xs : list Q) : list (Q * Q) :=
  match xs with
  | [] => []
  | y :: rest => (x, y) :: steps_from y rest
  end.

(** The last breakpoint. *)
Fixpoint upper (x : Q) (xs : list Q) : Q :=
  match xs with
  | [] => x
  | y :: rest => upper y rest
  end.

Definition covers_cell (b : Bin) (lon_step lat_step : Q * Q) : bool :=
  Qle_bool (lon_min b) (fst lon_step) && Qle_bool (snd lon_step) (lon_max b) &&
  Qle_bool (lat_min b) (fst lat_step) && Qle_bool (snd lat_step) (lat_max b).

Definition grid_covered (registry : list Bin)
    (lon0 : Q) (lons : list Q) (lat0 : Q) (lats : list Q) : bool :=
  forallb (fun lon_step =>
    forallb (fun lat_step =>
      existsb (fun b => covers_cell b lon_step lat_step) registry)
      (steps_from lat0 lats))
    (steps_from lon0 lons).

(** The longitudes and latitudes at which bounds of [binsData] start or
    end, in ascending order. *)
Definition lon_breaks : list Q :=
  [119.475; 121.0625; 122.65; 124.2375; 125.825; 127.4125; 129.0].

Definition lat_breaks : list Q :=
  [4.5; 7.0; 9.5; 12.0; 14.5; 17.0; 19.5; 22.0].

End Grid.

(** ** Sorting and searching the bin table (BinPage) *)

Module BinTable.

(** The two values [sortConfig.direction] is ever given. *)
Inductive Direction : Type := asc | desc.

Record SortConfig : Type := mkSortConfig {
  key : string;
  direction : Direction
}.

(** [useState({ key: "id", direction: "asc" })] *)
Definition initialSortConfig : SortConfig :=
  {| key := "id"; direction := asc |}.

Definition is_asc (d : Direction) : bool :=
  match d with asc => true | desc => false end.

(** [handleSort]: the clicked column becomes the key; the direction is
    "desc" when that column was already the key in direction "asc", and
    "asc" otherwise. *)
Definition handleSort (k : string) (sortConfig : SortConfig) : SortConfig :=
  let direction0 := asc in
  let direction1 :=
    if String.eqb (key sortConfig) k && is_asc (direction sortConfig)
    then desc else direction0 in
  {| key := k; direction := direction1 |}.

(** [direction === "asc" ? a.f - b.f : b.f - a.f] *)
Definition difference (d : Direction) (x y : Q) : Q :=
  if is_asc d then x - y else y - x.

(** The comparator handed to [sort]. *)
Definition compareBins (sortConfig : SortConfig) (a b : Bin) : Q :=
  if String.eqb (key sortConfig) "id" then
    difference (direction sortConfig) (inject_Z (id a)) (inject_Z (id b))
  else if String.eqb (key sortConfig) "area" then
    difference (direction sortConfig) (area a) (area b)
  else if String.eqb (key sortConfig) "center_lat" then
    difference (direction sortConfig) (center_lat a) (center_lat b)
  else if String.eqb (key sortConfig) "center_lon" then
    difference (direction sortConfig) (center_lon a) (center_lon b)
  else 0.

(** The field the comparator reads under a given key (0 under a key it
    does not know, where it answers 0 for every pair). *)
Definition keyValue (sortConfig : SortConfig) (b : Bin) : Q :=
  if String.eqb (key sortConfig) "id" then inject_Z (id b)
  else if String.eqb (key sortConfig) "area" then area b
  else if String.eqb (key sortConfig) "center_lat" then center_lat b
  else if String.eqb (key sortConfig) "center_lon" then center_lon b
  else 0.

(** The order of two rows a configuration asks for. *)
Definition in_order (sortConfig : SortConfig) (a b : Bin) : Prop :=
  if is_asc (direction sortConfig)
  then keyValue sortConfig a <= keyValue sortConfig b
  else keyValue sortConfig b <= keyValue sortConfig a.

(** [Array.prototype.sort] with a comparator is a stable sort: [x] goes
    before [y] when the comparator is negative, after it when positive, and
    the two keep their order when it is zero.  It is written here as an
    insertion sort, each element entering the sorted rest of the array and
    stopping before the first element it does not have to follow. *)
Fixpoint insert (compare : Bin -> Bin -> Q) (x : Bin) (sorted : list Bin)
    : list Bin :=
  match sorted with
  | [] => [x]
  | y :: rest =>
      if Qle_bool (compare x y) 0 then x :: y :: rest
      else y :: insert compare x rest
  end.

Definition sort (compare : Bin -> Bin -> Q) (array : list Bin) : list Bin :=
  fold_right (insert compare) [] array.

(** [sortedData = [...binsData].sort(...)]: always sorted afresh from the
    table. *)
Definition sortedData (binsData : list Bin) (sortConfig : SortConfig)
    : list Bin :=
  sort (compareBins sortConfig) binsData.

(** [String.prototype.includes]: [t] occurs in [s]. *)
Fixpoint includes (s t : string) : bool :=
  if String.prefix t s then true
  else match s with
       | EmptyString => false
       | String _ rest => includes rest t
       end.

Section Search.

(** The two built-ins the search goes through, [Number.prototype.toString]
    and [String.prototype.toLowerCase]. *)
Variable numberToString : Q -> string.
Variable toLowerCase : string -> string.

(** The predicate of [filteredData]. *)
Definition matchesSearch (searchTerm : string) (bin : Bin) : bool :=
  let searchLower := toLowerCase searchTerm in
  includes (numberToString (inject_Z (id bin))) searchLower ||
  existsb (fun location => includes (toLowerCase location) searchLower)
    (locations bin) ||
  includes (numberToString (center_lat bin)) searchLower ||
  includes (numberToString (center_lon bin)) searchLower.

Definition filteredData (binsData : list Bin) (sortConfig : SortConfig)
    (searchTerm : string) : list Bin :=
  filter (matchesSearch searchTerm) (sortedData binsData sortConfig).

(** The "Total Bins" figure, [filteredData.length]. *)
Definition totalBins (binsData : list Bin) (sortConfig : SortConfig)
    (searchTerm : string) : nat :=
  List.length (filteredData binsData sortConfig searchTerm).

End Search.

(** Lower-casing of the letters A to Z, every other character kept: what
    [toLowerCase] does on text whose capitals are all ASCII. *)
Definition asciiLowerChar (c : Ascii.ascii) : Ascii.ascii :=
  let n := Ascii.nat_of_ascii c in
  if (65 <=? n)%nat && (n <=? 90)%nat then Ascii.ascii_of_nat (n + 32) else c.

Fixpoint asciiLower (s : string) : string :=
  match s with
  | EmptyString => EmptyString
  | String c rest => String (asciiLowerChar c) (asciiLower rest)
  end.

End BinTable.

(** ** The map and the bin details of the forecast page *)

Module ForecastMap.

Import Forecasting.

(** [forecastData.find(f => f.bin_id === parseInt(binId))] *)
Definition findForecast (forecastData : list ForecastRow) (binId : Z)
    : option ForecastRow :=
  find (fun f => (bin_id f =? binId)%Z) forecastData.

(** [forecast ? getRiskLevelColor(forecast.risk_level) : binInfo.color] *)
Definition riskColor (forecastData : list ForecastRow) (entry : Z * Region)
    : JsValue :=
  match findForecast forecastData (fst entry) with
  | Some forecast => getRiskLevelColor (risk_level forecast)
  | None => Str (color (snd entry))
  end.

(** The circles drawn on the map: key, centre and colour, one for each
    entry of [geographicBins]. *)
Definition circles (forecastData : list ForecastRow)
    : list (Z * list Q * JsValue) :=
  map (fun entry =>
         (fst entry, coordinates (snd entry), riskColor forecastData entry))
    geographicBins.

(** The historical markers: [historicalData.slice(0, 20).map(...)], each
    with its position and colour. *)
Definition historicalMarkers (historicalData : list Quake)
    : list (Z * list Q * string) :=
  map (fun eq => (quake_id eq, [latitude eq; longitude eq], markerColor eq))
    (firstn 20 historicalData).

End ForecastMap.

Module ForecastSession.

Import Forecasting.

(** The payload of [GET /api/forecast/:binId], as far as the page reads
    it. *)
Record BinDetail : Type := mkBinDetail {
  detail_bin_id : Z;
  location : string;
  confidence_level : Q;
  historical_pattern : string;
  recommendations : option (list string)
}.

(** The page with the state the detail panel adds: [selectedBin], and the
    bin ids the detail endpoint has been asked for. *)
Record Session : Type := mkSession {
  world : World;
  selectedBin : option BinDetail;
  detailRequests : list Z
}.

Definition detailFailedMessage : string :=
  "Failed to fetch detailed forecast for this region.".

(** A handler of the forecast state run inside the session. *)
Definition lift (f : World -> World) (s : Session) : Session :=
  {| world := f (world s); selectedBin := selectedBin s;
     detailRequests := detailRequests s |}.

Definition setSelectedBin (v : option BinDetail) (s : Session) : Session :=
  {| world := world s; selectedBin := v;
     detailRequests := detailRequests s |}.

(** The page at rest: not loading, and with no other text in [error] than
    one of the three messages of the handlers. *)
Definition at_rest (s : Session) : Prop :=
  loading (page (world s)) = false /\
  (error (page (world s)) = None \/
   error (page (world s)) = Some fetchFailedMessage \/
   error (page (world s)) = Some invalidYearMessage \/
   error (page (world s)) = Some detailFailedMessage).

(** What the user can do on the page: type in the year input, press the
    generate button, click the row at a position of the forecast table. *)
Inductive Event : Type :=
| ChangeYear (value : Num)
| ClickGenerate
| ClickRow (index : nat).

(** The number of row clicks among the events. *)
Definition rowClicks (events : list Event) : nat :=
  List.length
    (filter (fun e => match e with ClickRow _ => true | _ => false end)
       events).

Section Handlers.

Variable forecast_api : Num -> Reply (list ForecastRow).
Variable historical_api : Z -> Reply (list Quake).
Variable detail_api : Z -> Reply BinDetail.

(** [getBinForecast]: the request carries the bin id and nothing else. *)
Definition getBinForecast (binId : Z) (s : Session) : Session :=
  let s := {| world := world s; selectedBin := selectedBin s;
              detailRequests := detailRequests s ++ [binId] |} in
  match detail_api binId with
  | Resolved data => setSelectedBin (Some data) s
  | Rejected => lift (setError (Some detailFailedMessage)) s
  end.

(** One event, handled to its end before the next one: the input's
    [onChange], the button's [onClick] (the button is disabled while
    [loading]), a row's [onClick]. *)
Definition handle (e : Event) (s : Session) : Session :=
  match e with
  | ChangeYear value => lift (setInputYear value) s
  | ClickGenerate =>
      if loading (page (world s)) then s
      else lift (handleYearSubmit forecast_api) s
  | ClickRow index =>
      match nth_error (forecastData (page (world s))) index with
      | Some row => getBinForecast (bin_id row) s
      | None => s
      end
  end.

Definition run (events : list Event) (s : Session) : Session :=
  fold_left (fun s e => handle e s) events s.

(** The session once the page has mounted, the clock's year being
    [fullYear]. *)
Definition start (fullYear : Z) : Session :=
  {| world := onMount forecast_api historical_api (initialWorld fullYear);
     selectedBin := None; detailRequests := [] |}.

End Handlers.

End ForecastSession.

(** ** Navigation (App.jsx of eqforecast-site) *)

Module App.

Inductive Component : Type :=
| LandingPage | AwarenessPage | AboutPage | HotlinePage | ForecastPage.

(** [{condition && <Page />}] *)
Definition when (condition : bool) (c : Component) : list Component :=
  if condition then [c] else [].

(** The children of the root element for a value of [currentPage]. *)
Definition render (currentPage : Z) : list Component :=
  when (currentPage =? 1)%Z LandingPage ++
  when (currentPage =? 2)%Z AwarenessPage ++
  when (currentPage =? 3)%Z AboutPage ++
  when (currentPage =? 4)%Z HotlinePage ++
  when (currentPage =? 5)%Z ForecastPage.

(** [useState(1)] and [navigateToPage]. *)
Definition initialPage : Z := 1%Z.

Definition navigateToPage (page currentPage : Z) : Z := page.

(** The buttons in the header of the forecast page that navigate, by
    label. *)
Definition forecastPageButtons : list (string * Z) :=
  [ ("Overview", 1%Z); ("About", 3%Z); ("Hotlines", 4%Z);
    ("Awareness", 2%Z) ].

End App.

(** ** Navigation (the App component that has the login and bin pages) *)

Module AppWithLogin.

Inductive Component : Type :=
| LoginPage | LandingPage | AwarenessPage | AboutPage | HotlinePage
| ForecastPage | BinPage.

Record State : Type := mkState {
  currentPage : Z;
  isLoggedIn : bool
}.

(** [useState(3)], [useState(false)]. *)
Definition initialState : State :=
  {| currentPage := 3%Z; isLoggedIn := false |}.

(** [navigateToPage]; the component has no other state change. *)
Definition navigateToPage (page : Z) (s : State) : State :=
  {| currentPage := page; isLoggedIn := isLoggedIn s |}.

(** What evaluating the component's body gives: its children, or the
    exception raised on the way. *)
Inductive Rendered : Type :=
| Children (pages : list Component)
| ReferenceError (identifier : string).

Definition when (condition : bool) (c : Component) : list Component :=
  if condition then [c] else [].

(** The login page is given [onLoginSuccess={handleLoginSuccess}], and the
    component declares no [handleLoginSuccess]: reaching that element
    raises. *)
Definition render (s : State) : Rendered :=
  if (currentPage s =? 1)%Z then ReferenceError "handleLoginSuccess"
  else Children
         (when (currentPage s =? 3)%Z LandingPage ++
          when (currentPage s =? 4)%Z AwarenessPage ++
          when (currentPage s =? 5)%Z AboutPage ++
          when (currentPage s =? 6)%Z HotlinePage ++
          when (currentPage s =? 7)%Z ForecastPage ++
          when (currentPage s =? 8)%Z BinPage).

(** The pages the buttons of the bin page navigate to: the back arrow, the
    six buttons of the menu, and the Admin button shown to a logged-in
    user. *)
Definition goBack : Z := 7%Z.

Definition binPageButtons (loggedIn : bool) : list (string * Z) :=
  [ ("Overview", 3%Z); ("About", 5%Z); ("Hotlines", 6%Z);
    ("Awareness", 4%Z); ("Forecast Now", 7%Z); ("Bins", 8%Z) ]
  ++ (if loggedIn then [("Admin", 2%Z)] else []).

Definition visit (pages : list Z) (s : State) : State :=
  fold_left (fun s page => navigateToPage page s) pages s.

End AppWithLogin.

(** ** Overlap of the bins of a table *)

Module Tiling.

(** Two rectangles with no common interior point: one ends, on some axis,
    where the other starts or before. *)
Definition apart (b c : Bin) : bool :=
  Qle_bool (lon_max b) (lon_min c) || Qle_bool (lon_max c) (lon_min b) ||
  Qle_bool (lat_max b) (lat_min c) || Qle_bool (lat_max c) (lat_min b).

Definition pairwise_apart (table : list Bin) : bool :=
  forallb (fun b =>
    forallb (fun c => (id b =? id c)%Z || apart b c) table) table.

End Tiling.

(** ** The numbers of the table in binary64

    The page holds every number of the table as a double.  [number] gives
    the double of a decimal literal; the sums, differences and products
    below are the ones of binary64, each rounded to nearest. *)

Module Binary64.

(** A positive integer as a double, by its binary digits; exact below
    2^53. *)
Fixpoint of_pos (p : positive) : PrimFloat.float :=
  match p with
  | xH => PrimFloat.one
  | xO q => PrimFloat.mul PrimFloat.two (of_pos q)
  | xI q =>
      PrimFloat.add (PrimFloat.mul PrimFloat.two (of_pos q)) PrimFloat.one
  end.

Definition of_Z (z : Z) : PrimFloat.float :=
  match z with
  | Z0 => PrimFloat.zero
  | Zpos p => of_pos p
  | Zneg p => PrimFloat.opp (of_pos p)
  end.

(** The double a decimal literal denotes, the one nearest to its decimal
    value: the literal's digits and its power of ten are integers below
    2^53, so both are exact doubles and their quotient is rounded once. *)
Definition number (q : Q) : PrimFloat.float :=
  PrimFloat.div (of_Z (Qnum q)) (of_pos (Qden q)).

(** [Math.abs(x - y) <= tolerance] *)
Definition within (tolerance : Q) (x y : PrimFloat.float) : bool :=
  PrimFloat.leb (PrimFloat.abs (PrimFloat.sub x y)) (number tolerance).

(** [(lo + hi) / 2] *)
Definition midpoint (lo hi : PrimFloat.float) : PrimFloat.float :=
  PrimFloat.div (PrimFloat.add lo hi) PrimFloat.two.

(** [(lon_max - lon_min) * (lat_max - lat_min)] *)
Definition side_product (b : Bin) : PrimFloat.float :=
  PrimFloat.mul
    (PrimFloat.sub (number (lon_max b)) (number (lon_min b)))
    (PrimFloat.sub (number (lat_max b)) (number (lat_min b))).

(** The checks of one row: its centre against the midpoint of its bounds,
    its width and height against the differences of its bounds, its area
    against the product of its sides, and its rectangle against
    degeneracy. *)
Definition center_close (b : Bin) : bool :=
  within TableChecks.float_tolerance (number (center_lon b))
    (midpoint (number (lon_min b)) (number (lon_max b))) &&
  PrimFloat.eqb (number (center_lat b))
    (midpoint (number (lat_min b)) (number (lat_max b))).

Definition sides_close (b : Bin) : bool :=
  within TableChecks.float_tolerance (number (width b))
    (PrimFloat.sub (number (lon_max b)) (number (lon_min b))) &&
  PrimFloat.eqb (number (height b))
    (PrimFloat.sub (number (lat_max b)) (number (lat_min b))).

Definition area_close (b : Bin) : bool :=
  within TableChecks.two_decimal_rounding (number (area b)) (side_product b).

Definition row_ok (b : Bin) : bool :=
  center_close b && sides_close b && area_close b &&
  TableChecks.area_within TableChecks.two_decimal_rounding b &&
  TableChecks.nondegenerate b.

End Binary64.

(** * Properties of the static bin table *)

Section Binary64Literals.

Import PrimFloat Binary64.

(** [number] gives the doubles the literals denote, written here in
    hexadecimal, and the binary64 operations round as the page's do: the
    midpoint of 122.65 and 125.825 is one unit in the last place above
    124.2375, and 127.4125 - 125.825 falls short of 1.5875. *)
Lemma number_reads_literals :
  PrimFloat.eqb (number 122.65) 0x1.ea9999999999ap+6%float = true /\
  PrimFloat.eqb (number 125.825) 0x1.f74cccccccccdp+6%float = true /\
  PrimFloat.eqb (number 124.2375) 0x1.f0f3333333333p+6%float = true /\
  PrimFloat.eqb (number 127.4125) 0x1.fda6666666666p+6%float = true /\
  PrimFloat.eqb (number 1.5875) 0x1.9666666666666p+0%float = true /\
  PrimFloat.eqb (number 3.97) 0x1.fc28f5c28f5c3p+1%float = true /\
  PrimFloat.eqb (number 1e-9) 0x1.12e0be826d695p-30%float = true /\
  PrimFloat.eqb (number 0.005) 0x1.47ae147ae147bp-8%float = true /\
  PrimFloat.eqb (midpoint (number 122.65) (number 125.825))
    0x1.f0f3333333334p+6%float = true /\
  PrimFloat.eqb (PrimFloat.sub (number 127.4125) (number 125.825))
    0x1.9666666666640p+0%float = true.
Proof. vm_compute. repeat split. Qed.

End Binary64Literals.

Section TableInvariants.

Import TableChecks Binary64.

Lemma Qlt_from_bool (x y : Q) : negb (Qle_bool y x) = true -> x < y.
Proof.
  rewrite negb_true_iff. intros H. apply Qnot_le_lt. intros Hle.
  apply Qle_bool_iff in Hle. congruence.
Qed.

Lemma nondegenerate_sound (b : Bin) :
  nondegenerate b = true -> lon_min b < lon_max b /\ lat_min b < lat_max b.
Proof.
  unfold nondegenerate. rewrite andb_true_iff.
  intros [H1 H2]. auto using Qlt_from_bool.
Qed.

(** What a row that passes [row_ok] satisfies. *)
Lemma row_ok_sound (b : Bin) :
  row_ok b = true ->
  (within float_tolerance (number (center_lon b))
     (midpoint (number (lon_min b)) (number (lon_max b))) = true /\
   PrimFloat.eqb (number (center_lat b))
     (midpoint (number (lat_min b)) (number (lat_max b))) = true) /\
  (within float_tolerance (number (width b))
     (PrimFloat.sub (number (lon_max b)) (number (lon_min b))) = true /\
   PrimFloat.eqb (number (height b))
     (PrimFloat.sub (number (lat_max b)) (number (lat_min b))) = true) /\
  (Qabs (area b - (lon_max b - lon_min b) * (lat_max b - lat_min b))
     <= two_decimal_rounding /\
   within two_decimal_rounding (number (area b)) (side_product b) = true) /\
  (lon_min b < lon_max b /\ lat_min b < lat_max b).
Proof.
  unfold row_ok, center_close, sides_close, area_close, area_within.
  rewrite !andb_true_iff, Qle_bool_iff.
  intros [[[[[C1 C2] [S1 S2]] A64] AQ] N].
  repeat split; try assumption; apply (nondegenerate_sound b N).
Qed.

Lemma table_rows_ok : forallb row_ok BinPage.binsData = true.
Proof. vm_compute. reflexivity. Qed.

Lemma table_ids : map id BinPage.binsData = ids_0_23.
Proof. reflexivity. Qed.

Lemma ids_0_23_NoDup : NoDup ids_0_23.
Proof.
  unfold ids_0_23.
  repeat (constructor; [simpl; intuition discriminate | ]).
  constructor.
Qed.

(** C3, as the page's numbers have it: for every bin of the table the
    stored [center_lon] is the midpoint [(lon_min + lon_max) / 2] of its
    bounds within a floating-point tolerance of 1e-9, and the stored
    [center_lat] is exactly the midpoint [(lat_min + lat_max) / 2], both
    computed in binary64. *)
Theorem center_is_midpoint_within_tolerance (b : Bin) :
  In b BinPage.binsData ->
  within float_tolerance (number (center_lon b))
    (midpoint (number (lon_min b)) (number (lon_max b))) = true /\
  PrimFloat.eqb (number (center_lat b))
    (midpoint (number (lat_min b)) (number (lat_max b))) = true.
Proof.
  intros Hin.
  exact (proj1 (row_ok_sound b
                  (proj1 (forallb_forall _ _) table_rows_ok b Hin))).
Qed.

Lemma center_is_midpoint_within_tolerance_witness :
  let b := nth 21 BinPage.binsData no_bin in
  In b BinPage.binsData /\
  within float_tolerance (number (center_lon b))
    (midpoint (number (lon_min b)) (number (lon_max b))) = true /\
  PrimFloat.eqb (number (center_lat b))
    (midpoint (number (lat_min b)) (number (lat_max b))) = true.
Proof.
  assert (Hin : In (nth 21 BinPage.binsData no_bin) BinPage.binsData)
    by (apply nth_In; simpl; lia).
  split; [exact Hin | exact (center_is_midpoint_within_tolerance _ Hin)].
Defined.

(** C3, as claimed, fails at bin 21: its bounds run from 122.65 to 125.825
    in longitude, and in binary64 [(122.65 + 125.825) / 2] is not the stored
    124.2375 but the next double above it. *)
Lemma center_lon_bin21_is_not_the_midpoint :
  let b := nth 21 BinPage.binsData no_bin in
  In b BinPage.binsData /\
  id b = 21%Z /\
  PrimFloat.eqb (number (center_lon b))
    (midpoint (number (lon_min b)) (number (lon_max b))) = false /\
  PrimFloat.ltb (number (center_lon b))
    (midpoint (number (lon_min b)) (number (lon_max b))) = true.
Proof.
  cbv zeta. split; [apply nth_In; simpl; lia | ].
  split; [reflexivity | ]. split; vm_compute; reflexivity.
Qed.

(** C4, as the table has it: the stored area of every bin is the product of
    the side lengths of its bounds up to a rounding of the second decimal:
    the two differ by at most 0.005, on the decimal values and computed in
    binary64 alike. *)
Theorem area_is_product_to_two_decimals (b : Bin) :
  In b BinPage.binsData ->
  Qabs (area b - (lon_max b - lon_min b) * (lat_max b - lat_min b))
    <= two_decimal_rounding /\
  within two_decimal_rounding (number (area b)) (side_product b) = true.
Proof.
  intros Hin.
  exact (proj1 (proj2 (proj2 (row_ok_sound b
           (proj1 (forallb_forall _ _) table_rows_ok b Hin))))).
Qed.

Lemma area_is_product_to_two_decimals_witness :
  let b := nth 16 BinPage.binsData no_bin in
  In b BinPage.binsData /\
  Qabs (area b - (lon_max b - lon_min b) * (lat_max b - lat_min b))
    <= two_decimal_rounding /\
  within two_decimal_rounding (number (area b)) (side_product b) = true.
Proof.
  assert (Hin : In (nth 16 BinPage.binsData no_bin) BinPage.binsData)
    by (apply nth_In; simpl; lia).
  split; [exact Hin | exact (area_is_product_to_two_decimals _ Hin)].
Defined.

(** C4, as claimed, fails at bin 1: its bounds span 1.5875 by 2.5 degrees,
    a product of 3.96875, and the table stores 3.97; the gap of 1/800 is no
    floating-point error. *)
Lemma area_bin1_is_not_the_product :
  let b := nth 1 BinPage.binsData no_bin in
  In b BinPage.binsData /\
  area b == 3.97 /\
  (lon_max b - lon_min b) * (lat_max b - lat_min b) == 3.96875 /\
  Qabs (area b - (lon_max b - lon_min b) * (lat_max b - lat_min b))
    == 0.00125 /\
  ~ Qabs (area b - (lon_max b - lon_min b) * (lat_max b - lat_min b))
      <= float_tolerance.
Proof.
  cbv zeta. split; [apply nth_In; simpl; lia | ].
  split; [reflexivity | ]. split; [reflexivity | ].
  split; [reflexivity | ].
  intros H. apply Qle_bool_iff in H. vm_compute in H. discriminate H.
Qed.

(** C10, as the page's numbers have it: the table holds the 24 ids 0 to
    23, each once; every bounds rectangle has [lon_min < lon_max] and
    [lat_min < lat_max]; the stored [height] is exactly
    [lat_max - lat_min], and the stored [width] is [lon_max - lon_min]
    within a floating-point tolerance of 1e-9, both differences computed
    in binary64. *)
Theorem bins_well_formed :
  map id BinPage.binsData = ids_0_23 /\
  List.length BinPage.binsData = 24%nat /\
  NoDup (map id BinPage.binsData) /\
  forall b, In b BinPage.binsData ->
    lon_min b < lon_max b /\ lat_min b < lat_max b /\
    within float_tolerance (number (width b))
      (PrimFloat.sub (number (lon_max b)) (number (lon_min b))) = true /\
    PrimFloat.eqb (number (height b))
      (PrimFloat.sub (number (lat_max b)) (number (lat_min b))) = true.
Proof.
  split; [exact table_ids | ]. split; [reflexivity | ].
  split; [rewrite table_ids; exact ids_0_23_NoDup | ].
  intros b Hin.
  destruct (row_ok_sound b (proj1 (forallb_forall _ _) table_rows_ok b Hin))
    as [_ [[S1 S2] [_ [N1 N2]]]].
  repeat split; assumption.
Qed.

Lemma bins_well_formed_witness :
  let b := nth 1 BinPage.binsData no_bin in
  In b BinPage.binsData /\
  lon_min b < lon_max b /\ lat_min b < lat_max b /\
  within float_tolerance (number (width b))
    (PrimFloat.sub (number (lon_max b)) (number (lon_min b))) = true /\
  PrimFloat.eqb (number (height b))
    (PrimFloat.sub (number (lat_max b)) (number (lat_min b))) = true.
Proof.
  assert (Hin : In (nth 1 BinPage.binsData no_bin) BinPage.binsData)
    by (apply nth_In; simpl; lia).
  split; [exact Hin | exact (proj2 (proj2 (proj2 bins_well_formed)) _ Hin)].
Defined.

(** C10, as claimed, fails at bin 1: its bounds run from 125.825 to
    127.4125 in longitude, and in binary64 [127.4125 - 125.825] is not the
    stored width 1.5875 but a double below it. *)
Lemma width_bin1_is_not_the_difference :
  let b := nth 1 BinPage.binsData no_bin in
  In b BinPage.binsData /\
  id b = 1%Z /\
  PrimFloat.eqb (number (width b))
    (PrimFloat.sub (number (lon_max b)) (number (lon_min b))) = false /\
  PrimFloat.ltb (PrimFloat.sub (number (lon_max b)) (number (lon_min b)))
    (number (width b)) = true.
Proof.
  cbv zeta. split; [apply nth_In; simpl; lia | ].
  split; [reflexivity | ]. split; vm_compute; reflexivity.
Qed.

(** C8: the two variants of the table give every id 0 to 23 the same
    bounds, width, height, area and centre; only the place names differ,
    and they differ for every bin. *)
Theorem variants_agree_on_geometry :
  map geometry BinPage.binsData = map geometry BinPageVariant.binsData /\
  map id BinPage.binsData = ids_0_23 /\
  Forall2 (fun a b => locations a <> locations b)
    BinPage.binsData BinPageVariant.binsData.
Proof.
  split; [reflexivity | ]. split; [reflexivity | ].
  unfold BinPage.binsData, BinPageVariant.binsData.
  repeat (constructor; [simpl; discriminate | ]).
  constructor.
Qed.

End TableInvariants.

(** * The spatial index *)

Section SpatialIndexFacts.

Import SpatialIndex.

Lemma contains_iff (b : Bin) (lat lon : Q) :
  contains b lat lon = true <->
  (lon_min b <= lon <= lon_max b /\ lat_min b <= lat <= lat_max b).
Proof.
  unfold contains. rewrite !andb_true_iff, !Qle_bool_iff. tauto.
Qed.

Lemma preferred_iff (b c : Bin) :
  preferred b c = true <->
  area b < area c \/ (area b == area c /\ (id b < id c)%Z).
Proof.
  unfold preferred.
  rewrite orb_true_iff, andb_true_iff, negb_true_iff, Qeq_bool_iff, Z.ltb_lt.
  split; (intros [H | H]; [left | right; exact H]).
  - apply Qnot_le_lt. intros Hle. apply Qle_bool_iff in Hle. congruence.
  - destruct (Qle_bool (area c) (area b)) eqn:E; [ | reflexivity].
    apply Qle_bool_iff in E. exfalso. exact (Qlt_not_le _ _ H E).
Qed.

Lemma chosen_before_refl (b : Bin) : chosen_before b b.
Proof. right. split; [reflexivity | lia]. Qed.

Lemma chosen_before_trans (a b c : Bin) :
  chosen_before a b -> chosen_before b c -> chosen_before a c.
Proof.
  unfold chosen_before.
  intros [H1 | [H1 H1']] [H2 | [H2 H2']].
  - left. lra.
  - left. lra.
  - left. lra.
  - right. split; [lra | lia].
Qed.

(** Whichever of the two [pick] keeps, it is selected before both. *)
Lemma pick_chosen (best b : Bin) :
  chosen_before (pick best b) best /\ chosen_before (pick best b) b.
Proof.
  unfold pick. destruct (preferred b best) eqn:E.
  - apply preferred_iff in E. split; [ | apply chosen_before_refl].
    destruct E as [E | [E1 E2]]; [left; exact E | right; split; [exact E1 | lia]].
  - split; [apply chosen_before_refl | ].
    assert (N : ~ (area b < area best \/
                   (area b == area best /\ (id b < id best)%Z))).
    { intros H. apply preferred_iff in H. congruence. }
    unfold chosen_before.
    destruct (Qlt_le_dec (area best) (area b)) as [Hlt | Hle]; [left; exact Hlt | ].
    right. destruct (Qlt_le_dec (area b) (area best)) as [Hlt' | Hle'].
    + exfalso. apply N. left. exact Hlt'.
    + assert (Heq : area best == area b) by lra.
      split; [exact Heq | ].
      destruct (Z_lt_le_dec (id b) (id best)) as [Hz | Hz]; [ | exact Hz].
      exfalso. apply N. right. split; [lra | exact Hz].
Qed.

Lemma pick_in (best b : Bin) : pick best b = best \/ pick best b = b.
Proof. unfold pick. destruct (preferred b best); auto. Qed.

Lemma fold_pick_in (rest : list Bin) (b : Bin) :
  In (fold_left pick rest b) (b :: rest).
Proof.
  revert b. induction rest as [ | c rest IH]; intros b; simpl.
  - left. reflexivity.
  - specialize (IH (pick b c)). simpl in IH.
    set (chosen := fold_left pick rest (pick b c)) in *.
    destruct IH as [IH | IH]; [ | right; right; exact IH].
    destruct (pick_in b c) as [E | E]; rewrite E in IH; auto.
Qed.

Lemma fold_pick_chosen (rest : list Bin) (b c : Bin) :
  In c (b :: rest) -> chosen_before (fold_left pick rest b) c.
Proof.
  revert b c. induction rest as [ | d rest IH]; intros b c Hin; simpl.
  - destruct Hin as [<- | []]. apply chosen_before_refl.
  - destruct (pick_chosen b d) as [Hb Hd].
    destruct Hin as [<- | [<- | Hin]].
    + eapply chosen_before_trans; [apply IH; left; reflexivity | exact Hb].
    + eapply chosen_before_trans; [apply IH; left; reflexivity | exact Hd].
    + apply IH. right. exact Hin.
Qed.

(** Whatever the number of matches, [assign] answers with the fold of the
    tie-break over them. *)
Lemma assign_fold (registry : list Bin) (lat lon : Q) (b : Bin)
    (rest : list Bin) :
  filter (fun b => contains b lat lon) registry = b :: rest ->
  assign registry lat lon = Assigned (id (fold_left pick rest b)).
Proof.
  unfold assign. intros ->. destruct rest; reflexivity.
Qed.

Lemma assign_unassigned_iff (registry : list Bin) (lat lon : Q) :
  assign registry lat lon = Unassigned <->
  forall b, In b registry -> contains b lat lon = false.
Proof.
  unfold assign.
  destruct (filter (fun b => contains b lat lon) registry) as [ | b rest] eqn:E.
  - split; [ | reflexivity]. intros _ b Hin.
    destruct (contains b lat lon) eqn:C; [ | reflexivity].
    assert (H : In b (filter (fun b => contains b lat lon) registry))
      by (apply filter_In; auto).
    rewrite E in H. destruct H.
  - assert (H : In b (filter (fun b => contains b lat lon) registry))
      by (rewrite E; left; reflexivity).
    apply filter_In in H. destruct H as [Hin C].
    split.
    + destruct rest; discriminate.
    + intros Hall. rewrite (Hall b Hin) in C. discriminate.
Qed.

Lemma assign_assigned (registry : list Bin) (lat lon : Q) (i : Z) :
  assign registry lat lon = Assigned i ->
  exists b, In b registry /\ contains b lat lon = true /\ id b = i /\
    forall c, In c registry -> contains c lat lon = true -> chosen_before b c.
Proof.
  destruct (filter (fun b => contains b lat lon) registry) as [ | b rest] eqn:E.
  - unfold assign. rewrite E. discriminate.
  - rewrite (assign_fold _ _ _ _ _ E). intros [= <-].
    exists (fold_left pick rest b).
    assert (Hsel : In (fold_left pick rest b)
                     (filter (fun b => contains b lat lon) registry))
      by (rewrite E; apply fold_pick_in).
    apply filter_In in Hsel. destruct Hsel as [Hin C].
    repeat split; try assumption.
    intros c Hc Cc. apply fold_pick_chosen. rewrite <- E.
    apply filter_In. auto.
Qed.

(** On the table, the whole edge [lon = 122.65] shared by bins 0 and 16
    goes to bin 16: bin 0 is larger, bin 23 (which touches the edge at
    [lat = 7]) is larger too, and bin 17 (which touches it at [lat = 12])
    has the area of bin 16 and a larger id. *)
Lemma shared_edge_0_16 (lat : Q) :
  7 <= lat <= 12 -> assign BinPage.binsData lat 122.65 = Assigned 16.
Proof.
  intros [H1 H2].
  set (b16 := nth 16 BinPage.binsData TableChecks.no_bin).
  assert (In16 : In b16 BinPage.binsData) by (apply nth_In; simpl; lia).
  assert (C16 : contains b16 lat 122.65 = true).
  { apply contains_iff.
    cbv [b16 nth BinPage.binsData lon_min lon_max lat_min lat_max bounds].
    lra. }
  destruct (assign BinPage.binsData lat 122.65) as [ | i] eqn:E.
  - rewrite assign_unassigned_iff in E. rewrite (E b16 In16) in C16.
    discriminate.
  - destruct (assign_assigned _ _ _ _ E) as [b [Hin [Hc [Hid Hmin]]]].
    specialize (Hmin b16 In16 C16). apply contains_iff in Hc.
    subst i. f_equal. unfold chosen_before in Hmin.
    cbv [b16 nth BinPage.binsData area id] in Hmin.
    unfold BinPage.binsData in Hin.
    repeat (destruct Hin as [<- | Hin]); try contradiction;
      cbv [lon_min lon_max lat_min lat_max bounds area id nth] in *;
      try reflexivity; exfalso;
      destruct Hc as [[? ?] [? ?]];
      destruct Hmin as [? | [? ?]]; try lra; try lia.
Qed.

(** C2: the containment test is inclusive on all four sides; [assign]
    answers [Unassigned] exactly when no bin contains the point, the single
    matching bin when there is one, and otherwise a matching bin that no
    other matching bin beats on (area, id).  On the table, every point of
    the edge [lon = 122.65] shared by bins 0 and 16 goes to bin 16, the
    smaller one (at [lat = 9.5] exactly these two bins match); the point
    (3, 127.4125) lies on the edge shared by bins 1 and 2, of equal area,
    and goes to bin 1. *)
Theorem assign_selects_smallest_matching_bin :
  (forall b lat lon,
     contains b lat lon = true <->
     (lon_min b <= lon <= lon_max b /\ lat_min b <= lat <= lat_max b)) /\
  (forall registry lat lon,
     assign registry lat lon = Unassigned <->
     forall b, In b registry -> contains b lat lon = false) /\
  (forall registry lat lon b,
     filter (fun b => contains b lat lon) registry = [b] ->
     assign registry lat lon = Assigned (id b)) /\
  (forall registry lat lon i,
     assign registry lat lon = Assigned i ->
     exists b, In b registry /\ contains b lat lon = true /\ id b = i /\
       forall c, In c registry -> contains c lat lon = true ->
         chosen_before b c) /\
  (map id (filter (fun b => contains b 9.5 122.65) BinPage.binsData)
     = [0; 16]%Z /\
   forall lat, 7 <= lat <= 12 ->
     assign BinPage.binsData lat 122.65 = Assigned 16) /\
  (map id (filter (fun b => contains b 3 127.4125) BinPage.binsData)
     = [1; 2]%Z /\
   assign BinPage.binsData 3 127.4125 = Assigned 1).
Proof.
  split; [exact contains_iff | ].
  split; [exact assign_unassigned_iff | ].
  split; [intros registry lat lon b E; unfold assign; rewrite E; reflexivity | ].
  split; [exact assign_assigned | ].
  split; split; try exact shared_edge_0_16; vm_compute; reflexivity.
Qed.

Lemma assign_selects_smallest_matching_bin_witness :
  (exists b, In b BinPage.binsData /\ contains b 9.5 122.65 = true /\
     id b = 16%Z /\
     forall c, In c BinPage.binsData -> contains c 9.5 122.65 = true ->
       chosen_before b c) /\
  assign BinPage.binsData 12 122.65 = Assigned 16.
Proof.
  split.
  - apply (proj1 (proj2 (proj2 (proj2
      assign_selects_smallest_matching_bin))) BinPage.binsData 9.5 122.65
      16%Z).
    vm_compute. reflexivity.
  - apply (proj2 (proj1 (proj2 (proj2 (proj2 (proj2
      assign_selects_smallest_matching_bin)))))).
    split; apply Qle_bool_iff; vm_compute; reflexivity.
Defined.

End SpatialIndexFacts.

(** * The table leaves no gap *)

Section Coverage.

Import SpatialIndex Grid.

(** A value between the first and the last breakpoint falls in one of the
    consecutive intervals. *)
Lemma in_some_step (xs : list Q) :
  forall (x v : Q),
    xs <> [] -> x <= v -> v <= upper x xs ->
    exists p, In p (steps_from x xs) /\ fst p <= v /\ v <= snd p.
Proof.
  induction xs as [ | y rest IH]; intros x v Hne Hlo Hhi.
  - contradiction Hne. reflexivity.
  - simpl in Hhi. destruct rest as [ | z rest].
    + exists (x, y). simpl. auto.
    + destruct (Qlt_le_dec v y) as [Hlt | Hge].
      * exists (x, y). simpl. split; [left; reflexivity | ].
        split; [exact Hlo | apply Qlt_le_weak; exact Hlt].
      * destruct (IH y v) as [p [Hin Hp]]; [discriminate | exact Hge | exact Hhi | ].
        exists p. split; [right; exact Hin | exact Hp].
Qed.

Lemma covers_cell_contains (b : Bin) (lon_step lat_step : Q * Q)
    (lat lon : Q) :
  covers_cell b lon_step lat_step = true ->
  fst lon_step <= lon -> lon <= snd lon_step ->
  fst lat_step <= lat -> lat <= snd lat_step ->
  contains b lat lon = true.
Proof.
  unfold covers_cell. rewrite !andb_true_iff, !Qle_bool_iff.
  intros [[[H1 H2] H3] H4] L1 L2 L3 L4.
  apply contains_iff. repeat split; eapply Qle_trans; eassumption.
Qed.

(** A registry that covers every cell of a grid contains every point of
    the grid's rectangle. *)
Lemma grid_covered_sound (registry : list Bin)
    (lon0 : Q) (lons : list Q) (lat0 : Q) (lats : list Q) (lat lon : Q) :
  grid_covered registry lon0 lons lat0 lats = true ->
  lons <> [] -> lats <> [] ->
  lon0 <= lon -> lon <= upper lon0 lons ->
  lat0 <= lat -> lat <= upper lat0 lats ->
  exists b, In b registry /\ contains b lat lon = true.
Proof.
  intros Hgrid Hlons Hlats Hx0 Hx1 Hy0 Hy1.
  destruct (in_some_step lons lon0 lon Hlons Hx0 Hx1) as [sx [Hsx [Hx Hx']]].
  destruct (in_some_step lats lat0 lat Hlats Hy0 Hy1) as [sy [Hsy [Hy Hy']]].
  unfold grid_covered in Hgrid.
  pose proof (proj1 (forallb_forall _ _) Hgrid sx Hsx) as Hrow.
  pose proof (proj1 (forallb_forall _ _) Hrow sy Hsy) as Hcell.
  apply existsb_exists in Hcell. destruct Hcell as [b [Hin Hb]].
  exists b. split; [exact Hin | ].
  eapply covers_cell_contains; eassumption.
Qed.

Lemma table_grid_covered :
  grid_covered BinPage.binsData 116.3 lon_breaks 2.0 lat_breaks = true.
Proof. vm_compute. reflexivity. Qed.

(** C9: every point with [116.3 <= lon <= 129.0] and [2.0 <= lat <= 22.0]
    lies, bounds included, in at least one bin of the table, so [assign]
    does not answer [Unassigned] for it. *)
Theorem table_covers_region (lat lon : Q) :
  116.3 <= lon <= 129.0 -> 2.0 <= lat <= 22.0 ->
  (exists b, In b BinPage.binsData /\ contains b lat lon = true) /\
  assign BinPage.binsData lat lon <> Unassigned.
Proof.
  intros [Hx0 Hx1] [Hy0 Hy1].
  assert (Hex : exists b, In b BinPage.binsData /\ contains b lat lon = true).
  { apply (grid_covered_sound _ 116.3 lon_breaks 2.0 lat_breaks).
    - exact table_grid_covered.
    - discriminate.
    - discriminate.
    - exact Hx0.
    - exact Hx1.
    - exact Hy0.
    - exact Hy1. }
  split; [exact Hex | ].
  intros Hun. destruct Hex as [b [Hin Hb]].
  rewrite (proj1 (assign_unassigned_iff _ _ _) Hun b Hin) in Hb.
  discriminate.
Qed.

Lemma table_covers_region_witness :
  (exists b, In b BinPage.binsData /\ contains b 14.5995 120.9842 = true) /\
  assign BinPage.binsData 14.5995 120.9842 <> Unassigned.
Proof.
  apply table_covers_region; split; apply Qle_bool_iff; vm_compute; reflexivity.
Defined.

End Coverage.

(** * Risk tiers *)

Section RiskFacts.

Import Risk.

Lemma Qle_bool_false (x y : Q) : Qle_bool x y = false <-> y < x.
Proof.
  split.
  - intros H. apply Qnot_le_lt. intros Hle. apply Qle_bool_iff in Hle.
    congruence.
  - intros H. destruct (Qle_bool x y) eqn:E; [ | reflexivity].
    apply Qle_bool_iff in E. exfalso. exact (Qlt_not_le _ _ H E).
Qed.

(** The four tiers as half-open intervals. *)
Lemma classify_risk_intervals (m : Q) :
  (m < MEDIUM_THRESHOLD -> classify_risk m = low) /\
  (MEDIUM_THRESHOLD <= m -> m < HIGH_THRESHOLD -> classify_risk m = medium) /\
  (HIGH_THRESHOLD <= m -> m < CRITICAL_THRESHOLD -> classify_risk m = high) /\
  (CRITICAL_THRESHOLD <= m -> classify_risk m = critical).
Proof.
  unfold classify_risk, MEDIUM_THRESHOLD, HIGH_THRESHOLD, CRITICAL_THRESHOLD.
  repeat split; intros;
    repeat match goal with
    | |- context [Qle_bool ?a m] =>
        let E := fresh "E" in
        destruct (Qle_bool a m) eqn:E;
        [apply Qle_bool_iff in E | apply Qle_bool_false in E]
    end; try reflexivity; exfalso; lra.
Qed.

(** The classification never ranks a smaller magnitude above a larger
    one. *)
Lemma classify_risk_monotone (a b : Q) :
  a <= b -> (rank (classify_risk a) <= rank (classify_risk b))%nat.
Proof.
  intros Hab.
  unfold classify_risk, MEDIUM_THRESHOLD, HIGH_THRESHOLD, CRITICAL_THRESHOLD.
  repeat match goal with
  | |- context [Qle_bool ?c ?x] =>
      let E := fresh "E" in
      destruct (Qle_bool c x) eqn:E;
      [apply Qle_bool_iff in E | apply Qle_bool_false in E]
  end; simpl; try lia; exfalso; lra.
Qed.

(** The rows the forecast page falls back to carry the tier of their
    magnitude. *)
Lemma fallback_rows_classified :
  Forall (fun r => Forecasting.risk_level r
                   = risk_name (classify_risk (Forecasting.max_magnitude r)))
    Forecasting.fallbackForecast.
Proof. repeat constructor. Qed.

(** The historical markers use a scale of their own, three colours with
    steps at 5 and 6, each step inclusive. *)
Lemma markerColor_steps (eq : Forecasting.Quake) :
  (Forecasting.magnitude eq < 5 -> Forecasting.markerColor eq = "#28a745") /\
  (5 <= Forecasting.magnitude eq -> Forecasting.magnitude eq < 6 ->
   Forecasting.markerColor eq = "#fd7e14") /\
  (6 <= Forecasting.magnitude eq -> Forecasting.markerColor eq = "#dc3545").
Proof.
  unfold Forecasting.markerColor.
  repeat split; intros;
    repeat match goal with
    | |- context [Qle_bool ?a ?x] =>
        let E := fresh "E" in
        destruct (Qle_bool a x) eqn:E;
        [apply Qle_bool_iff in E | apply Qle_bool_false in E]
    end; try reflexivity; exfalso; lra.
Qed.

(** The three marker colours are those [riskColors] gives to low, high and
    critical. *)
Lemma markerColor_palette (eq : Forecasting.Quake) :
  Forecasting.Str (Forecasting.markerColor eq) =
  Forecasting.getRiskLevelColor
    (if Qle_bool 6 (Forecasting.magnitude eq) then "critical"
     else if Qle_bool 5 (Forecasting.magnitude eq) then "high"
     else "low").
Proof.
  unfold Forecasting.markerColor.
  destruct (Qle_bool 6 (Forecasting.magnitude eq));
    [ | destruct (Qle_bool 5 (Forecasting.magnitude eq))]; reflexivity.
Qed.

(** C1: a magnitude below 5.0 is low, one from 5.0 to 5.9 medium, one from
    6.0 to 6.9 high, and one of 7.0 or more critical; each tier includes
    its lower bound. *)
Theorem risk_tiers_by_threshold (m : Q) :
  (m < 5.0 -> classify_risk m = low) /\
  (5.0 <= m <= 5.9 -> classify_risk m = medium) /\
  (6.0 <= m <= 6.9 -> classify_risk m = high) /\
  (7.0 <= m -> classify_risk m = critical).
Proof.
  destruct (classify_risk_intervals m) as [Hl [Hm [Hh Hc]]].
  unfold MEDIUM_THRESHOLD, HIGH_THRESHOLD, CRITICAL_THRESHOLD in *.
  repeat split.
  - exact Hl.
  - intros [H1 H2]. apply Hm; lra.
  - intros [H1 H2]. apply Hh; lra.
  - exact Hc.
Qed.

Lemma risk_tiers_by_threshold_witness :
  classify_risk 4.9 = low /\ classify_risk 5.0 = medium /\
  classify_risk 6.0 = high /\ classify_risk 7.0 = critical.
Proof.
  split; [apply (proj1 (risk_tiers_by_threshold 4.9)); reflexivity | ].
  split; [apply (proj1 (proj2 (risk_tiers_by_threshold 5.0)));
          split; apply Qle_bool_iff; reflexivity | ].
  split; [apply (proj1 (proj2 (proj2 (risk_tiers_by_threshold 6.0))));
          split; apply Qle_bool_iff; reflexivity | ].
  apply (proj2 (proj2 (proj2 (risk_tiers_by_threshold 7.0)))).
  apply Qle_bool_iff; reflexivity.
Defined.

End RiskFacts.

(** * The forecast page *)

Section ForecastPage.

Import Forecasting.

Variable forecast_api : Num -> Reply (list ForecastRow).

Lemma year_guard (y : Z) :
  truthy (Int y) && num_geb (Int y) 2020 && num_leb (Int y) 2030 = true <->
  (2020 <= y <= 2030)%Z.
Proof.
  simpl. rewrite !andb_true_iff, negb_true_iff, Z.eqb_neq, !Z.leb_le. lia.
Qed.

(** What a run of [generateForecast] leaves behind, by the way the request
    ended. *)
Lemma generateForecast_resolved (w : World) (rows : list ForecastRow) :
  forecast_api (inputYear (page w)) = Resolved rows ->
  generateForecast forecast_api w =
  {| page := {| inputYear := inputYear (page w); forecastData := rows;
                loading := false; error := None;
                historicalData := historicalData (page w) |};
     requests := requests w ++ [GetForecast (inputYear (page w))] |}.
Proof.
  intros H. unfold generateForecast, send. simpl. rewrite H.
  reflexivity.
Qed.

Lemma generateForecast_rejected (w : World) :
  forecast_api (inputYear (page w)) = Rejected ->
  generateForecast forecast_api w =
  {| page := {| inputYear := inputYear (page w);
                forecastData := fallbackForecast;
                loading := false; error := Some fetchFailedMessage;
                historicalData := historicalData (page w) |};
     requests := requests w ++ [GetForecast (inputYear (page w))] |}.
Proof.
  intros H. unfold generateForecast, send. simpl. rewrite H.
  reflexivity.
Qed.

Lemma generateForecast_requests (w : World) :
  requests (generateForecast forecast_api w)
  = requests w ++ [GetForecast (inputYear (page w))].
Proof.
  unfold generateForecast, send. simpl.
  destruct (forecast_api (inputYear (page w))); reflexivity.
Qed.

Lemma generateForecast_error (w : World) :
  error (page (generateForecast forecast_api w)) = None \/
  error (page (generateForecast forecast_api w)) = Some fetchFailedMessage.
Proof.
  unfold generateForecast, send. simpl.
  destruct (forecast_api (inputYear (page w))); simpl; auto.
Qed.

Lemma handleYearSubmit_in_range (w : World) (y : Z) :
  inputYear (page w) = Int y -> (2020 <= y <= 2030)%Z ->
  handleYearSubmit forecast_api w = generateForecast forecast_api w.
Proof.
  intros Hy Hr. unfold handleYearSubmit. rewrite Hy.
  rewrite (proj2 (year_guard y) Hr). reflexivity.
Qed.

Lemma handleYearSubmit_out_of_range (w : World) (y : Z) :
  inputYear (page w) = Int y -> ~ (2020 <= y <= 2030)%Z ->
  handleYearSubmit forecast_api w = setError (Some invalidYearMessage) w.
Proof.
  intros Hy Hr. unfold handleYearSubmit. rewrite Hy.
  destruct (truthy (Int y) && num_geb (Int y) 2020 && num_leb (Int y) 2030)
    eqn:E; [ | reflexivity].
  apply year_guard in E. contradiction.
Qed.

(** An input that is not a number is turned down as well. *)
Lemma handleYearSubmit_NaN (w : World) :
  inputYear (page w) = NaN ->
  handleYearSubmit forecast_api w = setError (Some invalidYearMessage) w.
Proof. intros Hy. unfold handleYearSubmit. rewrite Hy. reflexivity. Qed.

(** The mount effect sends its forecast request for the year after the
    clock's, without passing through the check of [handleYearSubmit]. *)
Lemma onMount_requests (historical_api : Z -> Reply (list Quake))
    (fullYear : Z) :
  requests (onMount forecast_api historical_api (initialWorld fullYear))
  = [GetForecast (Int (fullYear + 1)); GetHistoricalData 100%Z].
Proof.
  unfold onMount, loadHistoricalData.
  destruct (historical_api 100%Z); unfold setHistoricalData, send;
    cbn [requests]; rewrite generateForecast_requests; reflexivity.
Qed.


(** C6, as the page has it: for a year from 2020 to 2030, when the request
    is rejected the forecast rows are one per region of [geographicBins],
    ids 1 to 4 in ascending order; when it resolves they are the rows of
    the response, unchanged. *)
Theorem forecast_rows_per_region (w : World) (y : Z) :
  inputYear (page w) = Int y -> (2020 <= y <= 2030)%Z ->
  let rows := forecastData (page (handleYearSubmit forecast_api w)) in
  (forecast_api (Int y) = Rejected ->
     map bin_id rows = map fst geographicBins /\
     map bin_id rows = [1; 2; 3; 4]%Z) /\
  (forall data, forecast_api (Int y) = Resolved data -> rows = data).
Proof.
  intros Hy Hr rows. subst rows.
  rewrite (handleYearSubmit_in_range w y Hy Hr). split.
  - intros Hrej. rewrite generateForecast_rejected by (rewrite Hy; exact Hrej).
    simpl. split; reflexivity.
  - intros data Hres.
    rewrite (generateForecast_resolved w data) by (rewrite Hy; exact Hres).
    reflexivity.
Qed.

(** C7, as the page has it: when the request is rejected,
    [generateForecast] still ends with forecast rows, the four fallback
    rows whatever the state was, and with [loading] off; it also puts the
    fetch-failed message on the page. *)
Theorem rejected_request_falls_back (w : World) :
  forecast_api (inputYear (page w)) = Rejected ->
  let w' := generateForecast forecast_api w in
  forecastData (page w') = fallbackForecast /\
  map bin_id (forecastData (page w')) = map fst geographicBins /\
  loading (page w') = false /\
  historicalData (page w') = historicalData (page w) /\
  errorBanner (page w') = Some fetchFailedMessage.
Proof.
  intros Hrej w'. subst w'. rewrite (generateForecast_rejected w Hrej).
  simpl. repeat split; reflexivity.
Qed.

End ForecastPage.

Section ForecastPageRuns.

Import Forecasting.



Lemma forecast_rows_per_region_witness :
  map bin_id (forecastData (page (handleYearSubmit unreachable (mounted 2025))))
  = [1; 2; 3; 4]%Z.
Proof.
  refine (proj2 (proj1 (forecast_rows_per_region unreachable (mounted 2025)
                          2025 eq_refl _) eq_refl)).
  simpl; lia.
Defined.

(** C6, as claimed, fails for the year 2025 with the API unreachable: the
    page ends with four rows, for bins 1 to 4, while the table of the bin
    page has 24 bins, ids 0 to 23. *)
Lemma fallback_rows_are_not_the_bin_table :
  let rows :=
    forecastData (page (handleYearSubmit unreachable (mounted 2025))) in
  List.length rows = 4%nat /\
  List.length BinPage.binsData = 24%nat /\
  map bin_id rows <> map id BinPage.binsData.
Proof.
  cbv zeta. split; [reflexivity | ]. split; [reflexivity | ].
  vm_compute. discriminate.
Qed.

Lemma rejected_request_falls_back_witness :
  let w' := generateForecast unreachable (mounted 2025) in
  forecastData (page w') = fallbackForecast /\
  map bin_id (forecastData (page w')) = map fst geographicBins /\
  loading (page w') = false /\
  historicalData (page w') = historicalData (page (mounted 2025)) /\
  errorBanner (page w') = Some fetchFailedMessage.
Proof.
  exact (rejected_request_falls_back unreachable (mounted 2025) eq_refl).
Defined.

(** C7, as claimed, fails on a freshly mounted page whose request is
    rejected: the failure is put in [error] and shown in the banner. *)
Lemma rejected_request_is_shown :
  let w := mounted 2025 in
  let w' := generateForecast unreachable w in
  errorBanner (page w) = None /\
  errorBanner (page w') <> None /\
  errorBanner (page w') = Some "Failed to fetch forecast data. Please try again.".
Proof.
  cbv zeta. split; [reflexivity | ]. split; [ | reflexivity].
  vm_compute. discriminate.
Qed.

(** In the static variant of the page a submission changes nothing on the
    page, whatever the input holds: it adds one line to the console. *)
Lemma static_submit_only_logs (w : ForecastingStatic.World) :
  ForecastingStatic.page (ForecastingStatic.handleYearSubmit w)
  = ForecastingStatic.page w /\
  ForecastingStatic.console (ForecastingStatic.handleYearSubmit w)
  = ForecastingStatic.console w
    ++ [("Generating forecast for year:",
         ForecastingStatic.inputYear (ForecastingStatic.page w))].
Proof. split; reflexivity. Qed.

End ForecastPageRuns.

(** * Sorting and searching the bin table *)

Section BinTableFacts.

Import BinTable.

(** X1: a click on a column header makes that column the sort key.  On
    another column than the current key the direction is ascending; on the
    current key the direction flips, so a second click on the same header
    brings the configuration back. *)
Theorem handleSort_toggles (k : string) (c : SortConfig) :
  key (handleSort k c) = k /\
  (key c <> k -> direction (handleSort k c) = asc) /\
  (key c = k ->
     direction (handleSort k c) <> direction c /\
     handleSort k (handleSort k c) = c).
Proof.
  unfold handleSort. simpl. split; [reflexivity | ]. split.
  - intros Hne. apply String.eqb_neq in Hne. rewrite Hne. reflexivity.
  - intros He. rewrite String.eqb_refl, <- He, String.eqb_refl.
    destruct c as [k0 d]. simpl. destruct d; simpl; split;
      try discriminate; reflexivity.
Qed.

Lemma handleSort_toggles_witness :
  direction (handleSort "area" initialSortConfig) = asc /\
  handleSort "id" (handleSort "id" initialSortConfig) = initialSortConfig.
Proof.
  split.
  - apply (proj1 (proj2 (handleSort_toggles "area" initialSortConfig))).
    simpl. discriminate.
  - apply (proj2 (proj2 (handleSort_toggles "id" initialSortConfig))).
    reflexivity.
Defined.

Lemma insert_Permutation (compare : Bin -> Bin -> Q) (x : Bin)
    (l : list Bin) :
  Permutation (insert compare x l) (x :: l).
Proof.
  induction l as [ | y rest IH]; simpl.
  - apply Permutation_refl.
  - destruct (Qle_bool (compare x y) 0).
    + apply Permutation_refl.
    + eapply perm_trans; [apply perm_skip; exact IH | apply perm_swap].
Qed.

Lemma sort_Permutation (compare : Bin -> Bin -> Q) (l : list Bin) :
  Permutation (sort compare l) l.
Proof.
  induction l as [ | x rest IH]; simpl.
  - apply perm_nil.
  - eapply perm_trans; [apply insert_Permutation | ].
    apply perm_skip. exact IH.
Qed.

(** X2: whatever the sort configuration, the sorted table holds the rows
    of the table, each as often as the table does: sorting loses and
    repeats nothing. *)
Theorem sortedData_Permutation (binsData : list Bin) (c : SortConfig) :
  Permutation (sortedData binsData c) binsData /\
  List.length (sortedData binsData c) = List.length binsData.
Proof.
  assert (H : Permutation (sortedData binsData c) binsData)
    by apply sort_Permutation.
  split; [exact H | apply Permutation_length; exact H].
Qed.

(** The comparator is the difference, in the configured direction, of the
    values the key selects. *)
Lemma compareBins_keyValue (c : SortConfig) (a b : Bin) :
  compareBins c a b
  == difference (direction c) (keyValue c a) (keyValue c b).
Proof.
  unfold compareBins, keyValue.
  destruct (String.eqb (key c) "id"); [reflexivity | ].
  destruct (String.eqb (key c) "area"); [reflexivity | ].
  destruct (String.eqb (key c) "center_lat"); [reflexivity | ].
  destruct (String.eqb (key c) "center_lon"); [reflexivity | ].
  unfold difference. destruct (is_asc (direction c)); lra.
Qed.

Lemma compareBins_in_order (c : SortConfig) (a b : Bin) :
  compareBins c a b <= 0 <-> in_order c a b.
Proof.
  rewrite compareBins_keyValue. unfold difference, in_order.
  destruct (is_asc (direction c)); split; intros H; lra.
Qed.

Lemma in_order_total (c : SortConfig) (a b : Bin) :
  ~ in_order c a b -> in_order c b a.
Proof.
  unfold in_order. destruct (is_asc (direction c)); intros H;
    apply Qlt_le_weak; apply Qnot_le_lt; exact H.
Qed.

Lemma in_order_trans (c : SortConfig) (x y z : Bin) :
  in_order c x y -> in_order c y z -> in_order c x z.
Proof.
  unfold in_order. destruct (is_asc (direction c)); intros H1 H2; lra.
Qed.

Lemma insert_in_order (c : SortConfig) (x : Bin) (l : list Bin) :
  StronglySorted (in_order c) l ->
  StronglySorted (in_order c) (insert (compareBins c) x l).
Proof.
  induction l as [ | y rest IH]; intros Hs; simpl.
  - constructor; [constructor | constructor].
  - inversion Hs as [ | y' rest' Hrest Hy]; subst.
    destruct (Qle_bool (compareBins c x y)) eqn:E.
    + apply Qle_bool_iff, compareBins_in_order in E.
      constructor; [exact Hs | ].
      constructor; [exact E | ].
      eapply Forall_impl; [ | exact Hy].
      intros z Hz. eapply in_order_trans; eassumption.
    + assert (Hyx : in_order c y x).
      { apply in_order_total. intros H.
        apply compareBins_in_order, Qle_bool_iff in H. congruence. }
      constructor; [apply IH; exact Hrest | ].
      eapply Permutation_Forall;
        [apply Permutation_sym, insert_Permutation | ].
      constructor; assumption.
Qed.

(** X3: the sorted table is in the configured order of the key: ascending,
    every row's key value is at most that of every later row; descending,
    at least. *)
Theorem sortedData_in_order (binsData : list Bin) (c : SortConfig) :
  StronglySorted
    (fun a b =>
       if is_asc (direction c) then keyValue c a <= keyValue c b
       else keyValue c b <= keyValue c a)
    (sortedData binsData c).
Proof.
  change (StronglySorted (in_order c) (sortedData binsData c)).
  unfold sortedData, sort.
  induction binsData as [ | x rest IH]; simpl.
  - constructor.
  - apply insert_in_order. exact IH.
Qed.

Lemma insert_keeps_ties (c : SortConfig) (v : Q) (x : Bin) (l : list Bin) :
  filter (fun b => Qeq_bool (keyValue c b) v) (insert (compareBins c) x l)
  = filter (fun b => Qeq_bool (keyValue c b) v) (x :: l).
Proof.
  induction l as [ | y rest IH]; [reflexivity | ].
  simpl insert. destruct (Qle_bool (compareBins c x y) 0) eqn:E;
    [reflexivity | ].
  change (filter (fun b => Qeq_bool (keyValue c b) v)
            (y :: insert (compareBins c) x rest))
    with (if Qeq_bool (keyValue c y) v
          then y :: filter (fun b => Qeq_bool (keyValue c b) v)
                      (insert (compareBins c) x rest)
          else filter (fun b => Qeq_bool (keyValue c b) v)
                 (insert (compareBins c) x rest)).
  rewrite IH. simpl.
  destruct (Qeq_bool (keyValue c x) v) eqn:Ex;
    destruct (Qeq_bool (keyValue c y) v) eqn:Ey; try reflexivity.
  exfalso. apply Qeq_bool_iff in Ex, Ey.
  assert (H : compareBins c x y <= 0).
  { rewrite compareBins_keyValue. unfold difference.
    destruct (is_asc (direction c)); lra. }
  apply Qle_bool_iff in H. congruence.
Qed.

Lemma sort_keeps_ties (c : SortConfig) (l : list Bin) (v : Q) :
  filter (fun b => Qeq_bool (keyValue c b) v) (sort (compareBins c) l)
  = filter (fun b => Qeq_bool (keyValue c b) v) l.
Proof.
  unfold sort. induction l as [ | x rest IH]; [reflexivity | ].
  simpl fold_right. rewrite insert_keeps_ties. simpl. rewrite IH.
  reflexivity.
Qed.

Lemma sort_in_order (c : SortConfig) (l : list Bin) :
  StronglySorted (in_order c) (sort (compareBins c) l).
Proof.
  unfold sort. induction l as [ | x rest IH]; simpl.
  - constructor.
  - apply insert_in_order. exact IH.
Qed.

(** X4: sorting is stable in both directions: the rows that share a key
    value come out in the order the table has them (for the static table,
    by ascending id), and under a key the comparator does not know the
    table comes out unchanged. *)
Theorem sortedData_stable (binsData : list Bin) (c : SortConfig) :
  (forall v : Q,
     filter (fun b => Qeq_bool (keyValue c b) v) (sortedData binsData c)
     = filter (fun b => Qeq_bool (keyValue c b) v) binsData) /\
  (key c <> "id" -> key c <> "area" -> key c <> "center_lat" ->
   key c <> "center_lon" -> sortedData binsData c = binsData).
Proof.
  pose proof (sort_keeps_ties c binsData) as Hties.
  split; [exact Hties | ].
  intros H1 H2 H3 H4. specialize (Hties 0).
  assert (Hall : forall l : list Bin,
    filter (fun b => Qeq_bool (keyValue c b) 0) l = l).
  { intros l. induction l as [ | x rest IH]; [reflexivity | ].
    simpl. rewrite IH. unfold keyValue.
    apply String.eqb_neq in H1, H2, H3, H4. rewrite H1, H2, H3, H4.
    reflexivity. }
  rewrite !Hall in Hties. exact Hties.
Qed.

Lemma sortedData_stable_witness :
  map id (sortedData BinPage.binsData {| key := "area"; direction := desc |})
  = [22; 23; 18; 21; 0; 15; 16; 17; 19; 20;
     1; 2; 3; 4; 5; 6; 7; 8; 9; 10; 11; 12; 13; 14]%Z /\
  sortedData BinPage.binsData {| key := "locations"; direction := desc |}
  = BinPage.binsData.
Proof.
  split; [vm_compute; reflexivity | ].
  apply (proj2 (sortedData_stable BinPage.binsData
                  {| key := "locations"; direction := desc |}));
    simpl; discriminate.
Defined.

Lemma in_order_refl (c : SortConfig) (x : Bin) : in_order c x x.
Proof. unfold in_order. destruct (is_asc (direction c)); apply Qle_refl. Qed.

Lemma in_order_antisym (c : SortConfig) (x y : Bin) :
  in_order c x y -> in_order c y x -> keyValue c x == keyValue c y.
Proof.
  unfold in_order. destruct (is_asc (direction c)); intros H1 H2; lra.
Qed.

(** Two arrangements of the same rows that are both in order and keep the
    ties in the same order are the same list. *)
Lemma ordered_stable_unique (c : SortConfig) (l1 : list Bin) :
  forall l2 : list Bin,
    Permutation l1 l2 ->
    StronglySorted (in_order c) l1 -> StronglySorted (in_order c) l2 ->
    (forall v : Q,
       filter (fun b => Qeq_bool (keyValue c b) v) l1
       = filter (fun b => Qeq_bool (keyValue c b) v) l2) ->
    l1 = l2.
Proof.
  induction l1 as [ | x r1 IH]; intros l2 P S1 S2 F.
  - apply Permutation_nil in P. symmetry. exact P.
  - destruct l2 as [ | y r2].
    { apply Permutation_sym, Permutation_nil in P. discriminate P. }
    inversion S1 as [ | x' r1' S1' F1]; subst.
    inversion S2 as [ | y' r2' S2' F2]; subst.
    assert (Hxy : in_order c x y).
    { assert (Hin : In y (x :: r1))
        by (eapply Permutation_in; [apply Permutation_sym; exact P | left; reflexivity]).
      destruct Hin as [<- | Hin]; [apply in_order_refl | ].
      exact (proj1 (Forall_forall _ _) F1 y Hin). }
    assert (Hyx : in_order c y x).
    { assert (Hin : In x (y :: r2))
        by (eapply Permutation_in; [exact P | left; reflexivity]).
      destruct Hin as [<- | Hin]; [apply in_order_refl | ].
      exact (proj1 (Forall_forall _ _) F2 x Hin). }
    pose proof (in_order_antisym c x y Hxy Hyx) as Hk.
    assert (Ex : x = y).
    { specialize (F (keyValue c x)). simpl in F.
      assert (E1 : Qeq_bool (keyValue c x) (keyValue c x) = true)
        by (apply Qeq_bool_iff; reflexivity).
      assert (E2 : Qeq_bool (keyValue c y) (keyValue c x) = true)
        by (apply Qeq_bool_iff; symmetry; exact Hk).
      rewrite E1, E2 in F. injection F as F _. exact F. }
    subst y. f_equal. apply IH.
    + eapply Permutation_cons_inv. exact P.
    + exact S1'.
    + exact S2'.
    + intros v. specialize (F v). simpl in F.
      destruct (Qeq_bool (keyValue c x) v); [injection F as F | ]; exact F.
Qed.

(** X15: the sorted table is the only arrangement of the table's rows that
    is in the configured order and keeps the rows of equal key value in
    table order; in particular a table that is already in order comes out
    unchanged. *)
Theorem sortedData_unique (binsData : list Bin) (c : SortConfig) :
  (forall arranged : list Bin,
     Permutation arranged binsData ->
     StronglySorted (in_order c) arranged ->
     (forall v : Q,
        filter (fun b => Qeq_bool (keyValue c b) v) arranged
        = filter (fun b => Qeq_bool (keyValue c b) v) binsData) ->
     arranged = sortedData binsData c) /\
  (StronglySorted (in_order c) binsData -> sortedData binsData c = binsData).
Proof.
  assert (Huniq : forall arranged : list Bin,
    Permutation arranged binsData ->
    StronglySorted (in_order c) arranged ->
    (forall v : Q,
       filter (fun b => Qeq_bool (keyValue c b) v) arranged
       = filter (fun b => Qeq_bool (keyValue c b) v) binsData) ->
    arranged = sortedData binsData c).
  { intros arranged P S F. apply (ordered_stable_unique c).
    - eapply perm_trans; [exact P | apply Permutation_sym, sort_Permutation].
    - exact S.
    - apply sort_in_order.
    - intros v. rewrite F. symmetry. apply sort_keeps_ties. }
  split; [exact Huniq | ].
  intros S. symmetry. apply Huniq;
    [apply Permutation_refl | exact S | reflexivity].
Qed.

Lemma sortedData_unique_witness :
  sortedData (firstn 4 BinPage.binsData) initialSortConfig
  = firstn 4 BinPage.binsData.
Proof.
  apply (proj2 (sortedData_unique (firstn 4 BinPage.binsData)
                  initialSortConfig)).
  simpl firstn.
  repeat first [ apply SSorted_nil | apply SSorted_cons
               | apply Forall_nil | apply Forall_cons ];
    cbv [in_order initialSortConfig direction is_asc];
    apply Qle_bool_iff; vm_compute; reflexivity.
Defined.

Lemma filter_Permutation (p : Bin -> bool) (l l' : list Bin) :
  Permutation l l' -> Permutation (filter p l) (filter p l').
Proof.
  induction 1 as [ | x l l' H IH | x y l | l l' l'' H1 IH1 H2 IH2]; simpl.
  - apply perm_nil.
  - destruct (p x); [apply perm_skip | ]; exact IH.
  - destruct (p x), (p y);
      try apply perm_swap; apply Permutation_refl.
  - eapply perm_trans; eassumption.
Qed.

Section SearchFacts.

Variable numberToString : Q -> string.
Variable toLowerCase : string -> string.

(** X5: the sort configuration has no say in which bins a search shows:
    under two configurations the shown rows are the same up to order, and
    the "Total Bins" figure is the same. *)
Theorem search_independent_of_sort (binsData : list Bin)
    (c c' : SortConfig) (searchTerm : string) :
  Permutation
    (filteredData numberToString toLowerCase binsData c searchTerm)
    (filteredData numberToString toLowerCase binsData c' searchTerm) /\
  totalBins numberToString toLowerCase binsData c searchTerm
  = totalBins numberToString toLowerCase binsData c' searchTerm.
Proof.
  assert (H : Permutation
    (filteredData numberToString toLowerCase binsData c searchTerm)
    (filteredData numberToString toLowerCase binsData c' searchTerm)).
  { unfold filteredData. apply filter_Permutation.
    eapply perm_trans; [apply sort_Permutation | ].
    apply Permutation_sym, sort_Permutation. }
  split; [exact H | ]. unfold totalBins. apply Permutation_length. exact H.
Qed.

Lemma includes_empty (s : string) : includes s "" = true.
Proof. destruct s; reflexivity. Qed.

(** X6: with the search box empty every bin is shown: the filtered table
    is the sorted table, and "Total Bins" is the size of the table. *)
Theorem empty_search_shows_all (binsData : list Bin) (c : SortConfig) :
  toLowerCase "" = "" ->
  filteredData numberToString toLowerCase binsData c ""
  = sortedData binsData c /\
  totalBins numberToString toLowerCase binsData c ""
  = List.length binsData.
Proof.
  intros Hlow.
  assert (H : filteredData numberToString toLowerCase binsData c ""
              = sortedData binsData c).
  { unfold filteredData.
    induction (sortedData binsData c) as [ | b rest IH]; [reflexivity | ].
    simpl. rewrite IH. unfold matchesSearch. rewrite Hlow, includes_empty.
    reflexivity. }
  split; [exact H | ]. unfold totalBins. rewrite H.
  apply Permutation_length, sort_Permutation.
Qed.

End SearchFacts.

Lemma empty_search_shows_all_witness :
  filteredData (fun _ => "") asciiLower BinPage.binsData
    initialSortConfig ""
  = sortedData BinPage.binsData initialSortConfig /\
  totalBins (fun _ => "") asciiLower BinPage.binsData initialSortConfig ""
  = List.length BinPage.binsData.
Proof.
  apply (empty_search_shows_all (fun _ => "") asciiLower). reflexivity.
Defined.

End BinTableFacts.

(** * The forecast page in use *)

Section ForecastSessionFacts.

Import Forecasting ForecastMap ForecastSession.

Variable forecast_api : Num -> Reply (list ForecastRow).
Variable historical_api : Z -> Reply (list Quake).
Variable detail_api : Z -> Reply BinDetail.

(** X7: loading the historical data sends one request, with limit 100, and
    touches nothing but [historicalData]; when the request is rejected the
    page stays exactly as it was, with no message raised. *)
Theorem loadHistoricalData_fails_silently (w : World) :
  let w' := loadHistoricalData historical_api w in
  requests w' = requests w ++ [GetHistoricalData 100] /\
  error (page w') = error (page w) /\
  forecastData (page w') = forecastData (page w) /\
  loading (page w') = loading (page w) /\
  inputYear (page w') = inputYear (page w) /\
  (historical_api 100%Z = Rejected -> page w' = page w) /\
  (forall data, historical_api 100%Z = Resolved data ->
     historicalData (page w') = data).
Proof.
  unfold loadHistoricalData, send.
  destruct (historical_api 100%Z) as [data | ]; simpl;
    repeat split; try reflexivity; try discriminate.
  intros data' [= <-]. reflexivity.
Qed.

Lemma handleYearSubmit_requests (w : World) :
  requests (handleYearSubmit forecast_api w) = requests w \/
  exists y, (2020 <= y <= 2030)%Z /\
    requests (handleYearSubmit forecast_api w)
    = requests w ++ [GetForecast (Int y)].
Proof.
  destruct (inputYear (page w)) as [ | y] eqn:Hy.
  - left. rewrite (handleYearSubmit_NaN forecast_api w Hy). reflexivity.
  - destruct (Z_le_dec 2020 y) as [H1 | H1];
      [destruct (Z_le_dec y 2030) as [H2 | H2] | ].
    + right. exists y. split; [lia | ].
      rewrite (handleYearSubmit_in_range forecast_api w y Hy) by lia.
      rewrite generateForecast_requests, Hy. reflexivity.
    + left.
      rewrite (handleYearSubmit_out_of_range forecast_api w y Hy) by lia.
      reflexivity.
    + left.
      rewrite (handleYearSubmit_out_of_range forecast_api w y Hy) by lia.
      reflexivity.
Qed.

Lemma getBinForecast_world_requests (binId : Z) (s : Session) :
  requests (world (getBinForecast detail_api binId s)) = requests (world s).
Proof.
  unfold getBinForecast. destruct (detail_api binId); reflexivity.
Qed.

Lemma handle_requests (e : Event) (s : Session) :
  exists added,
    requests (world (handle forecast_api detail_api e s))
    = requests (world s) ++ added /\
    Forall (fun r => exists y, r = GetForecast (Int y) /\
                               (2020 <= y <= 2030)%Z) added.
Proof.
  destruct e as [v | | index]; simpl.
  - exists []. rewrite app_nil_r. split; [reflexivity | constructor].
  - destruct (loading (page (world s))).
    + exists []. rewrite app_nil_r. split; [reflexivity | constructor].
    + simpl. destruct (handleYearSubmit_requests (world s)) as [H | [y [Hy H]]].
      * exists []. rewrite app_nil_r. split; [exact H | constructor].
      * exists [GetForecast (Int y)]. split; [exact H | ].
        constructor; [exists y; auto | constructor].
  - exists []. rewrite app_nil_r. split; [ | constructor].
    destruct (nth_error (forecastData (page (world s))) index);
      [apply getBinForecast_world_requests | reflexivity].
Qed.

Lemma run_requests (events : list Event) (s : Session) :
  exists added,
    requests (world (run forecast_api detail_api events s))
    = requests (world s) ++ added /\
    Forall (fun r => exists y, r = GetForecast (Int y) /\
                               (2020 <= y <= 2030)%Z) added.
Proof.
  unfold run. revert s. induction events as [ | e rest IH]; intros s; simpl.
  - exists []. rewrite app_nil_r. split; [reflexivity | constructor].
  - destruct (IH (handle forecast_api detail_api e s)) as [later [H1 H2]].
    destruct (handle_requests e s) as [first [H3 H4]].
    exists (first ++ later). split.
    + rewrite H1, H3, app_assoc. reflexivity.
    + apply Forall_app. split; assumption.
Qed.

Lemma getBinForecast_detailRequests (binId : Z) (s : Session) :
  detailRequests (getBinForecast detail_api binId s)
  = detailRequests s ++ [binId].
Proof.
  unfold getBinForecast. destruct (detail_api binId); reflexivity.
Qed.

Lemma handle_detailRequests (e : Event) (s : Session) :
  (List.length (detailRequests (handle forecast_api detail_api e s))
   <= List.length (detailRequests s) + rowClicks [e])%nat.
Proof.
  unfold rowClicks. destruct e as [v | | index]; simpl.
  - lia.
  - destruct (loading (page (world s))); simpl; lia.
  - destruct (nth_error (forecastData (page (world s))) index).
    + rewrite getBinForecast_detailRequests, length_app. simpl. lia.
    + lia.
Qed.

Lemma run_detailRequests (events : list Event) (s : Session) :
  (List.length (detailRequests (run forecast_api detail_api events s))
   <= List.length (detailRequests s) + rowClicks events)%nat.
Proof.
  unfold run. revert s.
  induction events as [ | e rest IH]; intros s; simpl fold_left.
  - simpl. lia.
  - specialize (IH (handle forecast_api detail_api e s)).
    pose proof (handle_detailRequests e s) as He.
    assert (Hc : rowClicks (e :: rest) = (rowClicks [e] + rowClicks rest)%nat).
    { unfold rowClicks. simpl. destruct e; simpl; reflexivity. }
    rewrite Hc. lia.
Qed.

(** X8: over a whole visit of the page, whatever the user types and
    clicks and however the API answers, the requests the page sends to the
    two endpoints that take parameters, [/api/forecast] with its year and
    [/api/historical-data] with its limit, are the two of the mount effect
    (the forecast for the year after the clock's, the historical data with
    limit 100), followed only by forecast requests whose year lies in 2020
    to 2030.  All it sends besides are the detail requests
    [/api/forecast/:binId], which carry no year: at most one for each row
    click, and none without a row click. *)
Theorem session_requests_in_range (fullYear : Z) (events : list Event) :
  let s := run forecast_api detail_api events
             (start forecast_api historical_api fullYear) in
  (exists later,
     requests (world s)
     = [GetForecast (Int (fullYear + 1)); GetHistoricalData 100] ++ later /\
     Forall (fun r => exists y, r = GetForecast (Int y) /\
                                (2020 <= y <= 2030)%Z) later) /\
  (List.length (detailRequests s) <= rowClicks events)%nat.
Proof.
  cbv zeta. split.
  - destruct (run_requests events
                (start forecast_api historical_api fullYear))
      as [later [H1 H2]].
    exists later. split; [ | exact H2].
    rewrite H1. unfold start. simpl world. rewrite onMount_requests.
    reflexivity.
  - pose proof (run_detailRequests events
                  (start forecast_api historical_api fullYear)) as H.
    simpl in H. exact H.
Qed.

Lemma generateForecast_at_rest (w : World) :
  loading (page (generateForecast forecast_api w)) = false /\
  (error (page (generateForecast forecast_api w)) = None \/
   error (page (generateForecast forecast_api w)) = Some fetchFailedMessage).
Proof.
  split; [ | apply generateForecast_error].
  unfold generateForecast, send. simpl.
  destruct (forecast_api (inputYear (page w))); reflexivity.
Qed.

Lemma handle_at_rest (e : Event) (s : Session) :
  at_rest s -> at_rest (handle forecast_api detail_api e s).
Proof.
  unfold at_rest. intros [Hl He]. destruct e as [v | | index]; simpl.
  - auto.
  - rewrite Hl. simpl. unfold handleYearSubmit.
    destruct (truthy (inputYear (page (world s))) &&
              num_geb (inputYear (page (world s))) 2020 &&
              num_leb (inputYear (page (world s))) 2030).
    + destruct (generateForecast_at_rest (world s)) as [H1 [H2 | H2]];
        rewrite H1, H2; auto.
    + simpl. auto.
  - destruct (nth_error (forecastData (page (world s))) index) as [row | ];
      [ | auto].
    unfold getBinForecast. destruct (detail_api (bin_id row)); simpl; auto.
Qed.

Lemma loadHistoricalData_keeps (w : World) :
  error (page (loadHistoricalData historical_api w)) = error (page w) /\
  loading (page (loadHistoricalData historical_api w)) = loading (page w).
Proof.
  unfold loadHistoricalData, send.
  destruct (historical_api 100%Z); split; reflexivity.
Qed.

Lemma start_at_rest (fullYear : Z) :
  at_rest (start forecast_api historical_api fullYear).
Proof.
  unfold at_rest, start. simpl world.
  destruct (loadHistoricalData_keeps
              (generateForecast forecast_api (initialWorld fullYear)))
    as [He Hl].
  unfold onMount. rewrite He, Hl.
  destruct (generateForecast_at_rest (initialWorld fullYear))
    as [H1 [H2 | H2]]; rewrite H1, H2; auto.
Qed.

(** X9: after the mount and after every event of a visit the page is not
    left loading, so the generate button is enabled, and the error banner
    is either absent or one of the three messages: fetching the forecast
    failed, the year is invalid, fetching the details failed. *)
Theorem session_at_rest (fullYear : Z) (events : list Event) :
  let s := run forecast_api detail_api events
             (start forecast_api historical_api fullYear) in
  loading (page (world s)) = false /\
  (errorBanner (page (world s)) = None \/
   errorBanner (page (world s)) = Some fetchFailedMessage \/
   errorBanner (page (world s)) = Some invalidYearMessage \/
   errorBanner (page (world s)) = Some detailFailedMessage).
Proof.
  cbv zeta.
  assert (H : at_rest (run forecast_api detail_api events
                         (start forecast_api historical_api fullYear))).
  { generalize (start_at_rest fullYear).
    generalize (start forecast_api historical_api fullYear).
    induction events as [ | e rest IH]; intros s Hs; simpl.
    - exact Hs.
    - apply IH. apply handle_at_rest. exact Hs. }
  destruct H as [Hl He]. split; [exact Hl | ].
  unfold errorBanner.
  destruct He as [He | [He | [He | He]]]; rewrite He; simpl; auto.
Qed.

(** X10: asking for a bin's details records the request and leaves the
    forecast rows alone.  When the request is rejected the panel keeps the
    bin it showed before and the details-failed message goes up; when it
    resolves the panel shows the payload and the [error] text is left as
    it was, an earlier message included.  No other event changes the
    panel: it keeps its bin across a change of year and a new forecast. *)
Theorem getBinForecast_outcomes (binId : Z) (s : Session) :
  let s' := getBinForecast detail_api binId s in
  detailRequests s' = detailRequests s ++ [binId] /\
  forecastData (page (world s')) = forecastData (page (world s)) /\
  (detail_api binId = Rejected ->
     selectedBin s' = selectedBin s /\
     errorBanner (page (world s')) = Some detailFailedMessage) /\
  (forall data, detail_api binId = Resolved data ->
     selectedBin s' = Some data /\
     error (page (world s')) = error (page (world s))) /\
  (forall v,
     selectedBin (run forecast_api detail_api [ChangeYear v; ClickGenerate] s)
     = selectedBin s).
Proof.
  cbv zeta. unfold getBinForecast.
  split; [destruct (detail_api binId); reflexivity | ].
  split; [destruct (detail_api binId); reflexivity | ].
  split; [intros ->; split; reflexivity | ].
  split; [intros data ->; split; reflexivity | ].
  intros v. simpl. destruct (loading (page (world s))); reflexivity.
Qed.

End ForecastSessionFacts.

Lemma loadHistoricalData_fails_silently_witness :
  Forecasting.page
    (Forecasting.loadHistoricalData (fun _ => Forecasting.Rejected)
       (Forecasting.mounted 2025))
  = Forecasting.page (Forecasting.mounted 2025).
Proof.
  exact (proj1 (proj2 (proj2 (proj2 (proj2 (proj2
    (loadHistoricalData_fails_silently (fun _ => Forecasting.Rejected)
       (Forecasting.mounted 2025))))))) eq_refl).
Defined.

Lemma getBinForecast_outcomes_witness :
  let s := {| ForecastSession.world := Forecasting.mounted 2025;
              ForecastSession.selectedBin := None;
              ForecastSession.detailRequests := [] |} in
  let s' := ForecastSession.getBinForecast (fun _ => Forecasting.Rejected)
              3%Z s in
  ForecastSession.selectedBin s' = ForecastSession.selectedBin s /\
  Forecasting.errorBanner (Forecasting.page (ForecastSession.world s'))
  = Some ForecastSession.detailFailedMessage.
Proof.
  exact (proj1 (proj2 (proj2
    (getBinForecast_outcomes Forecasting.unreachable
       (fun _ => Forecasting.Rejected) 3%Z
       {| ForecastSession.world := Forecasting.mounted 2025;
          ForecastSession.selectedBin := None;
          ForecastSession.detailRequests := [] |}))) eq_refl).
Defined.

(** * The map of the forecast page *)

Section ForecastMapFacts.

Import Forecasting ForecastMap.

Lemma findForecast_filter (rows : list ForecastRow) (k : Z) :
  In k (map fst geographicBins) ->
  findForecast
    (filter (fun r => existsb (Z.eqb (bin_id r)) (map fst geographicBins))
       rows) k
  = findForecast rows k.
Proof.
  intros Hk. unfold findForecast.
  induction rows as [ | r rest IH]; [reflexivity | ].
  cbn [filter find].
  destruct (existsb (Z.eqb (bin_id r)) (map fst geographicBins)) eqn:E.
  - cbn [find]. rewrite IH. reflexivity.
  - rewrite IH.
    destruct (bin_id r =? k)%Z eqn:Ek; [ | reflexivity].
    exfalso. apply Z.eqb_eq in Ek.
    assert (Hex : existsb (Z.eqb (bin_id r)) (map fst geographicBins) = true).
    { apply existsb_exists. exists k. split; [exact Hk | ].
      apply Z.eqb_eq. exact Ek. }
    congruence.
Qed.

Lemma findForecast_none (rows : list ForecastRow) (k : Z) :
  (forall r, In r rows -> bin_id r <> k) -> findForecast rows k = None.
Proof.
  intros H. unfold findForecast.
  destruct (find (fun f => (bin_id f =? k)%Z) rows) as [r | ] eqn:E;
    [ | reflexivity].
  apply find_some in E. destruct E as [Hin Hk]. apply Z.eqb_eq in Hk.
  exfalso. exact (H r Hin Hk).
Qed.

(** X11: whatever rows the forecast holds, the map draws one circle for
    each of the four regions, in key order.  Rows for other bin ids change
    nothing on the map; a region without a row keeps its own colour; a
    region with rows takes the colour of the risk level of the first of
    them. *)
Theorem circles_follow_regions (rows : list ForecastRow) :
  map (fun c => fst (fst c)) (circles rows) = [1; 2; 3; 4]%Z /\
  circles rows
  = circles
      (filter (fun r => existsb (Z.eqb (bin_id r)) (map fst geographicBins))
         rows) /\
  (forall entry,
     (forall r, In r rows -> bin_id r <> fst entry) ->
     riskColor rows entry = Str (color (snd entry))) /\
  (forall entry before r rest,
     rows = before ++ r :: rest ->
     (forall r', In r' before -> bin_id r' <> fst entry) ->
     bin_id r = fst entry ->
     riskColor rows entry = getRiskLevelColor (risk_level r)).
Proof.
  split; [reflexivity | ]. split; [ | split].
  - unfold circles. apply map_ext_in. intros entry Hin.
    unfold riskColor. rewrite findForecast_filter; [reflexivity | ].
    apply in_map. exact Hin.
  - intros entry H. unfold riskColor. rewrite findForecast_none by exact H.
    reflexivity.
  - intros entry before r rest -> Hbefore Hr. unfold riskColor, findForecast.
    induction before as [ | b before IH]; simpl.
    + rewrite Hr, Z.eqb_refl. reflexivity.
    + assert (Hb : (bin_id b =? fst entry)%Z = false).
      { apply Z.eqb_neq. apply Hbefore. left. reflexivity. }
      rewrite Hb. apply IH. intros r' Hin. apply Hbefore. right. exact Hin.
Qed.

Lemma circles_follow_regions_witness :
  map (fun c => snd c) (circles fallbackForecast)
  = [Str "#28a745"; Str "#ffc107"; Str "#fd7e14"; Str "#dc3545"] /\
  map (fun c => snd c) (circles [])
  = map (fun e => Str (color (snd e))) geographicBins.
Proof.
  split; [reflexivity | ].
  unfold circles. rewrite map_map. apply map_ext. intros entry. simpl.
  apply (proj1 (proj2 (proj2 (circles_follow_regions [])))).
  intros r [].
Defined.

(** X12: at most twenty historical markers are drawn, for the first
    entries of the data in their order; and a stronger quake never gets a
    milder colour: above a red marker's magnitude markers are red, below a
    green marker's they are green. *)
Theorem historicalMarkers_capped (historicalData : list Quake) :
  List.length (historicalMarkers historicalData)
  = Nat.min 20 (List.length historicalData) /\
  map (fun m => fst (fst m)) (historicalMarkers historicalData)
  = firstn 20 (map quake_id historicalData) /\
  (forall a b : Quake,
     magnitude a <= magnitude b ->
     (markerColor a = "#dc3545" -> markerColor b = "#dc3545") /\
     (markerColor b = "#28a745" -> markerColor a = "#28a745")).
Proof.
  unfold historicalMarkers. split; [ | split].
  - rewrite length_map. apply length_firstn.
  - rewrite map_map, firstn_map. reflexivity.
  - intros a b Hab. unfold markerColor.
    destruct (Qle_bool 6 (magnitude a)) eqn:A6;
      destruct (Qle_bool 5 (magnitude a)) eqn:A5;
      destruct (Qle_bool 6 (magnitude b)) eqn:B6;
      destruct (Qle_bool 5 (magnitude b)) eqn:B5;
      split; intros H; try reflexivity; try discriminate H; exfalso;
      repeat match goal with
      | E : Qle_bool _ _ = true |- _ => apply Qle_bool_iff in E
      | E : Qle_bool _ _ = false |- _ => apply Qle_bool_false in E
      end; lra.
Qed.

Lemma historicalMarkers_capped_witness :
  markerColor {| quake_id := 2; latitude := 7.1; longitude := 125.6;
                 magnitude := 7.4 |} = "#dc3545".
Proof.
  refine (proj1 (proj2 (proj2 (historicalMarkers_capped []))
                   {| quake_id := 1; latitude := 14.6; longitude := 121.0;
                      magnitude := 6.1 |} _ _) _).
  - apply Qle_bool_iff. vm_compute. reflexivity.
  - reflexivity.
Defined.

End ForecastMapFacts.

(** * Navigation *)

Section NavigationFacts.

(** X13: the App of eqforecast-site shows at most one page at a time, and
    exactly one when [currentPage] is 1 to 5; it starts on the landing
    page, and every button of the forecast page's header leads to a page
    that is shown. *)
Theorem app_shows_one_page (currentPage : Z) :
  (List.length (App.render currentPage) <= 1)%nat /\
  ((1 <= currentPage <= 5)%Z <->
   List.length (App.render currentPage) = 1%nat) /\
  App.render App.initialPage = [App.LandingPage] /\
  Forall (fun button =>
            List.length
              (App.render (App.navigateToPage (snd button) currentPage))
            = 1%nat)
    App.forecastPageButtons.
Proof.
  split; [ | split; [ | split]].
  - unfold App.render, App.when.
    destruct (Z.eqb_spec currentPage 1); [subst; simpl; lia | ].
    destruct (Z.eqb_spec currentPage 2); [subst; simpl; lia | ].
    destruct (Z.eqb_spec currentPage 3); [subst; simpl; lia | ].
    destruct (Z.eqb_spec currentPage 4); [subst; simpl; lia | ].
    destruct (Z.eqb_spec currentPage 5); [subst; simpl; lia | ].
    simpl. lia.
  - unfold App.render, App.when.
    destruct (Z.eqb_spec currentPage 1); [subst; simpl; split; [reflexivity | lia] | ].
    destruct (Z.eqb_spec currentPage 2); [subst; simpl; split; [reflexivity | lia] | ].
    destruct (Z.eqb_spec currentPage 3); [subst; simpl; split; [reflexivity | lia] | ].
    destruct (Z.eqb_spec currentPage 4); [subst; simpl; split; [reflexivity | lia] | ].
    destruct (Z.eqb_spec currentPage 5); [subst; simpl; split; [reflexivity | lia] | ].
    simpl. split; [lia | discriminate].
  - reflexivity.
  - repeat constructor.
Qed.

Lemma app_shows_one_page_witness :
  List.length (App.render 5) = 1%nat.
Proof.
  apply (proj1 (proj1 (proj2 (app_shows_one_page 5)))). lia.
Defined.

Lemma visit_keeps_login (pages : list Z) (s : AppWithLogin.State) :
  AppWithLogin.isLoggedIn (AppWithLogin.visit pages s)
  = AppWithLogin.isLoggedIn s.
Proof.
  unfold AppWithLogin.visit. revert s.
  induction pages as [ | p rest IH]; intros s; simpl;
    [reflexivity | rewrite IH; reflexivity].
Qed.

(** X14: in the App that has the login and bin pages, no navigation ever
    logs the user in, so the bin page never shows its Admin button; every
    button the bin page does show, the back arrow included, leads to a
    page that renders alone.  Page 1, the login page, cannot be rendered:
    it refers to [handleLoginSuccess], which the component does not
    declare; page 2 renders nothing. *)
Theorem login_app_navigation (pages : list Z) :
  let s := AppWithLogin.visit pages AppWithLogin.initialState in
  AppWithLogin.isLoggedIn s = false /\
  Forall (fun button =>
            exists c,
              AppWithLogin.render
                (AppWithLogin.navigateToPage (snd button) s)
              = AppWithLogin.Children [c])
    (AppWithLogin.binPageButtons (AppWithLogin.isLoggedIn s)) /\
  AppWithLogin.render (AppWithLogin.navigateToPage AppWithLogin.goBack s)
  = AppWithLogin.Children [AppWithLogin.ForecastPage] /\
  AppWithLogin.render (AppWithLogin.navigateToPage 1 s)
  = AppWithLogin.ReferenceError "handleLoginSuccess" /\
  AppWithLogin.render (AppWithLogin.navigateToPage 2 s)
  = AppWithLogin.Children [] /\
  AppWithLogin.render AppWithLogin.initialState
  = AppWithLogin.Children [AppWithLogin.LandingPage].
Proof.
  cbv zeta.
  assert (Hl : AppWithLogin.isLoggedIn
                 (AppWithLogin.visit pages AppWithLogin.initialState) = false)
    by (rewrite visit_keeps_login; reflexivity).
  split; [exact Hl | ]. rewrite Hl.
  split; [ | repeat split; reflexivity].
  unfold AppWithLogin.binPageButtons. simpl.
  repeat (constructor; [eexists; reflexivity | ]). constructor.
Qed.

End NavigationFacts.

(** * The tables as tilings *)

Section TilingFacts.

Import TableChecks Tiling.

Lemma pairwise_apart_sound (table : list Bin) (b c : Bin) (lat lon : Q) :
  pairwise_apart table = true ->
  In b table -> In c table -> id b <> id c ->
  lon_min b < lon < lon_max b -> lat_min b < lat < lat_max b ->
  ~ (lon_min c <= lon <= lon_max c /\ lat_min c <= lat <= lat_max c).
Proof.
  intros Hall Hb Hc Hid [Hx0 Hx1] [Hy0 Hy1] [[Cx0 Cx1] [Cy0 Cy1]].
  unfold pairwise_apart in Hall.
  pose proof (proj1 (forallb_forall _ _) Hall b Hb) as Hrow.
  pose proof (proj1 (forallb_forall _ _) Hrow c Hc) as Hpair.
  apply orb_true_iff in Hpair. destruct Hpair as [Heq | Hap].
  - apply Z.eqb_eq in Heq. contradiction.
  - unfold apart in Hap. rewrite !orb_true_iff, !Qle_bool_iff in Hap.
    destruct Hap as [[[H | H] | H] | H]; lra.
Qed.

Lemma table_pairwise_apart : pairwise_apart BinPage.binsData = true.
Proof. vm_compute. reflexivity. Qed.

(** X16: no two bins of the table overlap: a point strictly inside the
    bounds of one bin lies in no other bin, not even on its edge.  Only
    points on shared edges belong to several bins. *)
Theorem bins_do_not_overlap (b c : Bin) (lat lon : Q) :
  In b BinPage.binsData -> In c BinPage.binsData -> id b <> id c ->
  lon_min b < lon < lon_max b -> lat_min b < lat < lat_max b ->
  ~ (lon_min c <= lon <= lon_max c /\ lat_min c <= lat <= lat_max c).
Proof.
  apply pairwise_apart_sound. exact table_pairwise_apart.
Qed.

Lemma bins_do_not_overlap_witness :
  let b := nth 0 BinPage.binsData no_bin in
  let c := nth 16 BinPage.binsData no_bin in
  ~ (lon_min c <= 121 <= lon_max c /\ lat_min c <= 9.5 <= lat_max c).
Proof.
  cbv zeta.
  apply (bins_do_not_overlap (nth 0 BinPage.binsData no_bin)).
  - apply nth_In. simpl. lia.
  - apply nth_In. simpl. lia.
  - simpl. discriminate.
  - split; reflexivity.
  - split; reflexivity.
Defined.

Lemma variant_rows_ok :
  forallb Binary64.row_ok BinPageVariant.binsData = true.
Proof. vm_compute. reflexivity. Qed.

Lemma variant_grid_covered :
  Grid.grid_covered BinPageVariant.binsData 116.3 Grid.lon_breaks
    2.0 Grid.lat_breaks = true.
Proof. vm_compute. reflexivity. Qed.

Lemma variant_pairwise_apart :
  pairwise_apart BinPageVariant.binsData = true.
Proof. vm_compute. reflexivity. Qed.

(** X17: the table of the second variant of the bin page keeps the
    invariants of the first.  Computed in binary64, every row's
    [center_lon] is the midpoint of its bounds within 1e-9 and its
    [center_lat] exactly, its [width] is [lon_max - lon_min] within 1e-9
    and its [height] exactly [lat_max - lat_min], and its area is the
    product of its sides within 0.005; every rectangle is non-degenerate;
    the rows leave no gap in the rectangle from (116.3, 2.0) to
    (129.0, 22.0) and do not overlap. *)
Theorem variant_table_invariants :
  (forall b, In b BinPageVariant.binsData ->
     (Binary64.within float_tolerance (Binary64.number (center_lon b))
        (Binary64.midpoint (Binary64.number (lon_min b))
           (Binary64.number (lon_max b))) = true /\
      PrimFloat.eqb (Binary64.number (center_lat b))
        (Binary64.midpoint (Binary64.number (lat_min b))
           (Binary64.number (lat_max b))) = true) /\
     (Binary64.within float_tolerance (Binary64.number (width b))
        (PrimFloat.sub (Binary64.number (lon_max b))
           (Binary64.number (lon_min b))) = true /\
      PrimFloat.eqb (Binary64.number (height b))
        (PrimFloat.sub (Binary64.number (lat_max b))
           (Binary64.number (lat_min b))) = true) /\
     (Qabs (area b - (lon_max b - lon_min b) * (lat_max b - lat_min b))
        <= two_decimal_rounding /\
      Binary64.within two_decimal_rounding (Binary64.number (area b))
        (Binary64.side_product b) = true) /\
     (lon_min b < lon_max b /\ lat_min b < lat_max b)) /\
  (forall lat lon,
     116.3 <= lon <= 129.0 -> 2.0 <= lat <= 22.0 ->
     exists b, In b BinPageVariant.binsData /\
       lon_min b <= lon <= lon_max b /\ lat_min b <= lat <= lat_max b) /\
  (forall b c lat lon,
     In b BinPageVariant.binsData -> In c BinPageVariant.binsData ->
     id b <> id c ->
     lon_min b < lon < lon_max b -> lat_min b < lat < lat_max b ->
     ~ (lon_min c <= lon <= lon_max c /\ lat_min c <= lat <= lat_max c)).
Proof.
  split; [ | split].
  - intros b Hin. apply row_ok_sound.
    exact (proj1 (forallb_forall _ _) variant_rows_ok b Hin).
  - intros lat lon [Hx0 Hx1] [Hy0 Hy1].
    destruct (grid_covered_sound BinPageVariant.binsData
                116.3 Grid.lon_breaks 2.0 Grid.lat_breaks lat lon
                variant_grid_covered) as [b [Hin Hb]];
      try discriminate; try assumption.
    exists b. split; [exact Hin | ]. apply contains_iff. exact Hb.
  - intros b c lat lon. apply pairwise_apart_sound.
    exact variant_pairwise_apart.
Qed.

Lemma variant_table_invariants_witness :
  (exists b, In b BinPageVariant.binsData /\
     lon_min b <= 120.9842 <= lon_max b /\
     lat_min b <= 14.5995 <= lat_max b) /\
  Binary64.within float_tolerance
    (Binary64.number (width (nth 1 BinPageVariant.binsData no_bin)))
    (PrimFloat.sub
       (Binary64.number (lon_max (nth 1 BinPageVariant.binsData no_bin)))
       (Binary64.number (lon_min (nth 1 BinPageVariant.binsData no_bin))))
  = true.
Proof.
  split.
  - apply (proj1 (proj2 variant_table_invariants));
      split; apply Qle_bool_iff; vm_compute; reflexivity.
  - apply (proj1 variant_table_invariants
             (nth 1 BinPageVariant.binsData no_bin)).
    apply nth_In. simpl. lia.
Defined.

End TilingFacts.
